(** * task-tracker: a shallow embedding of [main.go] and its specification

    The program is a command-line task tracker.  A [JsonTaskRepository]
    owns a slice of [Task]s and a file name; every mutating method ends in
    [save], which marshals the slice and rewrites the whole file.  [main]
    builds the repository (which reads the file), dispatches on the command
    name and prints either a success line or an error line.

    The embedding keeps the shape of the Go code:
    - effects (the file system, the wall clock, the two output streams, a
      call to [os.Exit], a run-time panic) live in one small monad [IO];
    - [for i, t := range r.tasks] loops are index loops over the backing
      array, reading cell [i] at iteration [i];
    - the packages the program imports ([os], [time], [fmt], [strconv],
      [encoding/json]) are modelled by what the program can observe of
      them; [encoding/json] is an interface ([JsonCodec]) so that every
      theorem holds for any codec, and [goJson] is one instance of it. *)

From Stdlib Require Import ZArith Ascii String DecimalString.
From stdpp Require Import base option list strings gmap.

Local Open Scope string_scope.

(** ** Data model *)

(** [time.Time] after [.UTC()]: the wall-clock instant, in nanoseconds since
    the Unix epoch ([setLoc] strips the monotonic reading). *)
Definition Time := Z.

(** [type Task struct].  Go's [int] is 64 bits wide; an [ID] is either
    [len(r.tasks) + 1] or a value read from the file, so no arithmetic of
    the program can wrap and [Z] is used as is. *)
Record Task := mkTask {
  ID : Z;
  Description : string;
  Status : string;
  CreatedAt : Time;
  UpdatedAt : Time
}.

(** A Go slice as the program can observe it: [nil], or a sequence of
    elements.  The difference shows when the slice is marshalled. *)
Inductive slice (A : Type) : Type :=
| Nil
| Slice (elems : list A).
Arguments Nil {A}.
Arguments Slice {A} elems.

Definition elems {A} (s : slice A) : list A :=
  match s with
  | Nil => []
  | Slice l => l
  end.

Definition len {A} (s : slice A) : nat := length (elems s).

(** [append(s, x)]: the result is never [nil]. *)
Definition append {A} (s : slice A) (x : A) : slice A := Slice (elems s ++ [x]).

(** [type JsonTaskRepository struct] *)
Record JsonTaskRepository := mkRepo {
  filename : string;
  tasks : slice Task
}.

(** ** Errors *)

Inductive Errno := ENOENT | EACCES.

(** The [error] values the program can meet; [nil] is [None : option error]. *)
Inductive error :=
| PathError (op path : string) (errno : Errno)   (* *fs.PathError, from package os *)
| JsonError (msg : string)                       (* an error of encoding/json *)
| Errorf (prefix : string) (e : error)           (* fmt.Errorf(prefix + "%w", e) *)
| ErrorString (msg : string).                    (* errors.New(msg) *)

Definition errno_text (e : Errno) : string :=
  match e with
  | ENOENT => "no such file or directory"
  | EACCES => "permission denied"
  end.

(** [err.Error()] *)
Fixpoint Error (e : error) : string :=
  match e with
  | PathError op path errno => op ++ " " ++ path ++ ": " ++ errno_text errno
  | JsonError msg => msg
  | Errorf prefix e' => prefix ++ Error e'
  | ErrorString msg => msg
  end.

(** [os.IsNotExist(err)] *)
Definition IsNotExist (err : option error) : bool :=
  match err with
  | Some (PathError _ _ ENOENT) => true
  | _ => false
  end.

(** ** The world outside the process *)

(** The files, and the paths on which opening for reading or for writing is
    refused. *)
Record FileSystem := mkFS {
  files : gmap string string;
  no_read : gset string;
  no_write : gset string
}.

Inductive Event :=
| EvReadFile (name : string)
| EvWriteFile (name data : string)
| EvStdout (text : string)
| EvStderr (text : string).

(** [clock k] is what the [k]-th call of [time.Now()] returns; [ticks]
    counts the calls made so far; [log] is the chronological trace of the
    system calls the process made. *)
Record World := mkWorld {
  fs : FileSystem;
  clock : nat → Time;
  ticks : nat;
  log : list Event
}.

Definition emit (e : Event) (w : World) : World :=
  mkWorld (fs w) (clock w) (ticks w) (log w ++ [e]).

Definition set_fs (f : FileSystem) (w : World) : World :=
  mkWorld f (clock w) (ticks w) (log w).

Definition tick (w : World) : World :=
  mkWorld (fs w) (clock w) (S (ticks w)) (log w).

(** ** The monad of effects *)

Inductive Outcome (A : Type) : Type :=
| Ret (a : A)          (* the computation returned *)
| Exit (code : Z)      (* os.Exit(code) *)
| Panic (msg : string) (* a run-time panic *).
Arguments Ret {A} a.
Arguments Exit {A} code.
Arguments Panic {A} msg.

Definition IO (A : Type) : Type := World → Outcome A * World.

#[global] Instance IO_ret : MRet IO := λ A a w, (Ret a, w).

#[global] Instance IO_bind : MBind IO := λ A B f m w,
  match m w with
  | (Ret a, w') => f a w'
  | (Exit c, w') => (Exit c, w')
  | (Panic msg, w') => (Panic msg, w')
  end.

Definition os_Exit {A} (code : Z) : IO A := λ w, (Exit code, w).
Definition panic {A} (msg : string) : IO A := λ w, (Panic msg, w).

(** *** package os *)

Definition ReadFile (name : string) : IO (string * option error) := λ w,
  let w' := emit (EvReadFile name) w in
  match files (fs w) !! name with
  | None => (Ret (EmptyString, Some (PathError "open" name ENOENT)), w')
  | Some data =>
      if decide (name ∈ no_read (fs w))
      then (Ret (EmptyString, Some (PathError "open" name EACCES)), w')
      else (Ret (data, None), w')
  end.

(** [os.WriteFile(name, data, perm)] creates or truncates the file.  The
    mode bits are not part of the model. *)
Definition WriteFile (name data : string) (perm : N) : IO (option error) := λ w,
  let w' := emit (EvWriteFile name data) w in
  if decide (name ∈ no_write (fs w))
  then (Ret (Some (PathError "open" name EACCES)), w')
  else (Ret None,
        set_fs (mkFS (<[name := data]> (files (fs w))) (no_read (fs w)) (no_write (fs w))) w').

(** *** package time *)

(** [time.Now().UTC()] *)
Definition Now_UTC : IO Time := λ w, (Ret (clock w (ticks w)), tick w).

(** *** package fmt *)

Definition nl : string := String "010"%char EmptyString.
Definition dq : string := String "034"%char EmptyString.

Definition itoa (n : Z) : string := NilZero.string_of_int (Z.to_int n).

Definition write_stdout (text : string) : IO unit := λ w, (Ret tt, emit (EvStdout text) w).
Definition write_stderr (text : string) : IO unit := λ w, (Ret tt, emit (EvStderr text) w).

(** [fmt.Println(a...)]: operands separated by spaces, then a newline. *)
Definition Println (operands : list string) : IO unit :=
  write_stdout (String.concat " " operands ++ nl).

(** *** package strconv *)

Definition digit_of (c : ascii) : option Z :=
  let n := Z.of_N (N_of_ascii c) in
  if (48 <=? n)%Z && (n <=? 57)%Z then Some (n - 48)%Z else None.

Fixpoint parse_digits (s : string) (acc : Z) : option Z :=
  match s with
  | EmptyString => Some acc
  | String c s' =>
      match digit_of c with
      | Some d => parse_digits s' (acc * 10 + d)%Z
      | None => None
      end
  end.

Definition min_int : Z := (- 2 ^ 63)%Z.
Definition max_int : Z := (2 ^ 63 - 1)%Z.

(** [strconv.Atoi(s)]: an optional sign, then one or more decimal digits,
    and the value must fit a 64-bit [int]; [None] stands for a non-nil
    error (a syntax error or a range error). *)
Definition Atoi (s : string) : option Z :=
  let '(neg, digits) :=
    match s with
    | String "-"%char rest => (true, rest)
    | String "+"%char rest => (false, rest)
    | _ => (false, s)
    end in
  match digits with
  | EmptyString => None
  | _ =>
      match parse_digits digits 0 with
      | Some n =>
          let v := if neg : bool then (- n)%Z else n in
          if (min_int <=? v)%Z && (v <=? max_int)%Z then Some v else None
      | None => None
      end
  end.

(** *** package slices *)

Definition Contains (s : list string) (v : string) : bool :=
  existsb (String.eqb v) s.

(** *** package encoding/json *)

(** What the program uses of [encoding/json]: [Marshal] on a slice of
    tasks, and [Unmarshal(data, &dst)], which returns the new value of
    [dst] together with the error. *)
Class JsonCodec := {
  Marshal : slice Task → error + string;
  Unmarshal : string → slice Task → slice Task * option error
}.

(** ** The program *)

Section Program.
Context {json : JsonCodec}.

(** [for i := range n { s = body(i, s) }], started at index [i]. *)
Fixpoint range_from {S : Type} (body : nat → S → IO S) (i n : nat) (s : S) : IO S :=
  match n with
  | O => mret s
  | Datatypes.S n' => s' ← body i s; range_from body (Datatypes.S i) n' s'
  end.

Fixpoint for_each {A : Type} (body : A → IO unit) (l : list A) : IO unit :=
  match l with
  | [] => mret tt
  | x :: l' => body x;; for_each body l'
  end.

(** [s[i] = f(s[i])], written into the backing array. *)
Definition slice_alter {A} (f : A → A) (i : nat) (s : slice A) : slice A :=
  match s with
  | Nil => Nil
  | Slice l => Slice (alter f i l)
  end.

Definition set_Description (d : string) (t : Task) : Task :=
  mkTask (ID t) d (Status t) (CreatedAt t) (UpdatedAt t).
Definition set_Status (s : string) (t : Task) : Task :=
  mkTask (ID t) (Description t) s (CreatedAt t) (UpdatedAt t).
Definition set_UpdatedAt (u : Time) (t : Task) : Task :=
  mkTask (ID t) (Description t) (Status t) (CreatedAt t) u.

(** *** Storage repository *)

Definition save (r : JsonTaskRepository) : IO (option error) :=
  match Marshal (tasks r) with
  | inl err => mret (Some (Errorf "failed to marshal tasks: " err))
  | inr data => WriteFile (filename r) data 420
  end.

Definition load (r : JsonTaskRepository) : IO (JsonTaskRepository * option error) :=
  '(file, err) ← ReadFile (filename r);
  if IsNotExist err then
    match Marshal (Slice []) with
    | inl err => mret (r, Some err)
    | inr data => err ← WriteFile (filename r) data 420; mret (r, err)
    end
  else
    let '(ts, err) := Unmarshal file (tasks r) in
    mret (mkRepo (filename r) ts, err).

(** Either the error ([nil, err]) or the repository ([repo, nil]). *)
Definition newJsonTaskRepository (filename : string) : IO (error + JsonTaskRepository) :=
  '(repo, err) ← load (mkRepo filename Nil);
  match err with
  | Some e => mret (inl e)
  | None => mret (inr repo)
  end.

Definition List (status : string) (r : JsonTaskRepository) : slice Task * option error :=
  if negb (String.eqb status EmptyString) then
    (foldl (λ filteredTasks t,
              if String.eqb (Status t) status then append filteredTasks t else filteredTasks)
           Nil (elems (tasks r)),
     None)
  else (tasks r, None).

Definition Add (description : string) (r : JsonTaskRepository)
  : IO (JsonTaskRepository * (Task * option error)) :=
  created ← Now_UTC;
  updated ← Now_UTC;
  let task := mkTask (Z.of_nat (len (tasks r)) + 1) description "todo" created updated in
  let r := mkRepo (filename r) (append (tasks r) task) in
  err ← save r;
  mret (r, (task, err)).

(** One iteration of the loops of [Update], [MarkInProgress] and [MarkDone]:
    [t] is cell [i]; on a match the field is assigned, then the clock is
    read and [UpdatedAt] is assigned. *)
Definition touch_body (id : Z) (assign : Task → Task) (i : nat) (ts : slice Task)
  : IO (slice Task) :=
  match elems ts !! i with
  | Some t =>
      if (ID t =? id)%Z then
        let ts := slice_alter assign i ts in
        now ← Now_UTC;
        mret (slice_alter (set_UpdatedAt now) i ts)
      else mret ts
  | None => mret ts
  end.

Definition Update (id : Z) (description : string) (r : JsonTaskRepository)
  : IO (JsonTaskRepository * option error) :=
  ts ← range_from (touch_body id (set_Description description)) 0 (len (tasks r)) (tasks r);
  let r := mkRepo (filename r) ts in
  err ← save r;
  mret (r, err).

(** One iteration of the loop of [Delete].  [cells] is the backing array
    the range expression captured, [ts] the current value of [r.tasks],
    which lives in the same array.  On a match,
    [append(r.tasks[:i], r.tasks[i+1:]...)] moves the tail one cell to the
    left inside the array and leaves the cells behind it as they were;
    [r.tasks[i+1:]] panics when [i+1] exceeds [len(r.tasks)]. *)
Definition delete_body (id : Z) (i : nat) (st : list Task * slice Task)
  : IO (list Task * slice Task) :=
  let '(cells, ts) := st in
  match cells !! i with
  | Some t =>
      if (ID t =? id)%Z then
        if decide (Datatypes.S i ≤ len ts)%nat then
          let kept := (take i (elems ts) ++ drop (Datatypes.S i) (elems ts))%list in
          mret ((kept ++ drop (length kept) cells)%list, Slice kept)
        else panic "slice bounds out of range"
      else mret st
  | None => mret st
  end.

Definition Delete (id : Z) (r : JsonTaskRepository)
  : IO (JsonTaskRepository * option error) :=
  '(_, ts) ← range_from (delete_body id) 0 (len (tasks r)) (elems (tasks r), tasks r);
  let r := mkRepo (filename r) ts in
  err ← save r;
  mret (r, err).

Definition MarkInProgress (id : Z) (r : JsonTaskRepository)
  : IO (JsonTaskRepository * option error) :=
  ts ← range_from (touch_body id (set_Status "in-progress")) 0 (len (tasks r)) (tasks r);
  let r := mkRepo (filename r) ts in
  err ← save r;
  mret (r, err).

Definition MarkDone (id : Z) (r : JsonTaskRepository)
  : IO (JsonTaskRepository * option error) :=
  ts ← range_from (touch_body id (set_Status "done")) 0 (len (tasks r)) (tasks r);
  let r := mkRepo (filename r) ts in
  err ← save r;
  mret (r, err).

(** *** Command dispatcher

    The interface [TaskRepository] has one implementation,
    [*JsonTaskRepository]; the dispatcher functions are modelled at that
    type.  Each returns the repository it was given, as the method left it,
    and the error. *)

Definition printUsage : IO unit :=
  Println ["Usage: task-tracker <command> [args]"];;
  Println ["Commands:"];;
  Println ["  add <description>"];;
  Println ["  update <id> <description>"];;
  Println ["  delete <id>"];;
  Println ["  mark-in-progress <id>"];;
  Println ["  mark-done <id>"];;
  Println ["  list [status]"].

Definition add (args : list string) (repo : JsonTaskRepository)
  : IO (JsonTaskRepository * option error) :=
  match args with
  | [description] =>
      '(repo, (task, err)) ← Add description repo;
      match err with
      | Some e => mret (repo, Some (ErrorString (Error e)))
      | None =>
          write_stdout ("task added successfully (ID: " ++ itoa (ID task) ++ ")" ++ nl);;
          mret (repo, None)
      end
  | _ => mret (repo, Some (ErrorString
                  ("help: task-tracker add " ++ dq ++ "task description" ++ dq)))
  end.

Definition update (args : list string) (repo : JsonTaskRepository)
  : IO (JsonTaskRepository * option error) :=
  match args with
  | [a0; a1] =>
      match Atoi a0 with
      | None => mret (repo, Some (ErrorString "invalid id"))
      | Some id => Update id a1 repo
      end
  | _ => mret (repo, Some (ErrorString
                  ("help: task-tracker update 1 " ++ dq ++ "new task description" ++ dq)))
  end.

Definition delete (args : list string) (repo : JsonTaskRepository)
  : IO (JsonTaskRepository * option error) :=
  match args with
  | [a0] =>
      match Atoi a0 with
      | None => mret (repo, Some (ErrorString "invalid id"))
      | Some id => Delete id repo
      end
  | _ => mret (repo, Some (ErrorString "help: task-tracker delete 1"))
  end.

Definition markInProgress (args : list string) (repo : JsonTaskRepository)
  : IO (JsonTaskRepository * option error) :=
  match args with
  | [a0] =>
      match Atoi a0 with
      | None => mret (repo, Some (ErrorString "invalid id"))
      | Some id => MarkInProgress id repo
      end
  | _ => mret (repo, Some (ErrorString "help: task-tracker mark-in-progress 1"))
  end.

Definition markDone (args : list string) (repo : JsonTaskRepository)
  : IO (JsonTaskRepository * option error) :=
  match args with
  | [a0] =>
      match Atoi a0 with
      | None => mret (repo, Some (ErrorString "invalid id"))
      | Some id => MarkDone id repo
      end
  | _ => mret (repo, Some (ErrorString "help: task-tracker mark-done 1"))
  end.

Definition statuses : list string := ["todo"; "in-progress"; "done"].

Definition print_task (task : Task) : IO unit :=
  Println [itoa (ID task); Description task; Status task].

(** The dispatcher function [list]; the name [list] is the list type's. *)
Definition list_ (args : list string) (repo : JsonTaskRepository)
  : IO (JsonTaskRepository * option error) :=
  match args with
  | [] =>
      let '(tasks, err) := List EmptyString repo in
      match err with
      | Some e => mret (repo, Some (ErrorString (Error e)))
      | None => for_each print_task (elems tasks);; mret (repo, None)
      end
  | [a0] =>
      if negb (Contains statuses a0) then mret (repo, Some (ErrorString "invalid status"))
      else
        let '(tasks, err) := List a0 repo in
        match err with
        | Some e => mret (repo, Some (ErrorString (Error e)))
        | None => for_each print_task (elems tasks);; mret (repo, None)
        end
  | _ => mret (repo, Some (ErrorString
                  ("help: task-tracker list" ++ nl ++ "task-cli list done" ++ nl
                   ++ "task-tracker list todo" ++ nl ++ "task-tracker list in-progress")))
  end.

(** [main], given [os.Args]. *)
Definition main (Args : list string) : IO unit :=
  match Args with
  | _ :: command :: args =>
      r ← newJsonTaskRepository "tasks.json";
      match r with
      | inl err =>
          write_stderr ("Error initializing repository: " ++ Error err ++ nl);;
          os_Exit 1
      | inr repo =>
          '(_, err) ←
            (if String.eqb command "add" then add args repo
             else if String.eqb command "update" then update args repo
             else if String.eqb command "delete" then delete args repo
             else if String.eqb command "mark-in-progress" then markInProgress args repo
             else if String.eqb command "mark-done" then markDone args repo
             else if String.eqb command "list" then list_ args repo
             else printUsage;; os_Exit 1);
          match err with
          | Some e => write_stderr ("Error: " ++ Error e ++ nl);; os_Exit 1
          | None => mret tt
          end
      end
  | _ => printUsage;; os_Exit 1
  end.

(** A run of the process: its exit code and the world it leaves.  A Go
    program that returns from [main] exits with 0; one that panics, with 2. *)
Definition run (Args : list string) (w : World) : Z * World :=
  match main Args w with
  | (Ret _, w') => (0%Z, w')
  | (Exit code, w') => (code, w')
  | (Panic _, w') => (2%Z, w')
  end.

End Program.

(** The text the process wrote to standard output, and its file accesses. *)
Definition stdout_of (l : list Event) : string :=
  String.concat EmptyString
    (omap (λ e, match e with EvStdout s => Some s | _ => None end) l).

Definition is_file_event (e : Event) : bool :=
  match e with
  | EvReadFile _ | EvWriteFile _ _ => true
  | _ => false
  end.

Definition file_events (l : list Event) : list Event := List.filter is_file_event l.

(** ** A codec: the JSON text [encoding/json] writes for a slice of tasks

    [goJson] marshals the way [json.Marshal] does for [[]Task]: [null] for
    a nil slice, otherwise an array of objects with the fields in
    declaration order, strings escaped, times in RFC 3339 with nanoseconds.
    Its [Unmarshal] reads back exactly that canonical text (and [null]);
    any other input is reported as an error, also input that
    [json.Unmarshal] would accept (white space, fields in another order).
    Strings are byte strings; bytes above 127 are written as they are. *)
Module GoJson.

Local Open Scope Z_scope.

Definition pad (width : nat) (n : Z) : string :=
  let s := NilZero.string_of_uint (N.to_uint (Z.to_N n)) in
  String.concat EmptyString (replicate (width - String.length s) "0"%string) ++ s.

(** Days since 1970-01-01 to the civil date, and back (proleptic Gregorian
    calendar). *)
Definition civil_from_days (days : Z) : Z * Z * Z :=
  let z := days + 719468 in
  let era := z / 146097 in
  let doe := z - era * 146097 in
  let yoe := (doe - doe / 1460 + doe / 36524 - doe / 146096) / 365 in
  let doy := doe - (365 * yoe + yoe / 4 - yoe / 100) in
  let mp := (5 * doy + 2) / 153 in
  let d := doy - (153 * mp + 2) / 5 + 1 in
  let m := if mp <? 10 then mp + 3 else mp - 9 in
  let y := yoe + era * 400 + (if m <=? 2 then 1 else 0) in
  (y, m, d).

Definition days_from_civil (y m d : Z) : Z :=
  let y := y - (if m <=? 2 then 1 else 0) in
  let era := y / 400 in
  let yoe := y - era * 400 in
  let doy := (153 * (if 2 <? m then m - 3 else m + 9) + 2) / 5 + d - 1 in
  let doe := yoe * 365 + yoe / 4 - yoe / 100 + doy in
  era * 146097 + doe - 719468.

Fixpoint trim_zeros_rev (s : list ascii) : list ascii :=
  match s with
  | "0"%char :: s' => trim_zeros_rev s'
  | _ => s
  end.

Definition fraction (nanos : Z) : string :=
  if nanos =? 0 then EmptyString
  else "." ++ string_of_list_ascii
                (rev (trim_zeros_rev (rev (list_ascii_of_string (pad 9 nanos))))).

(** [t.Format(time.RFC3339Nano)] of a UTC time; an error outside the years
    0 to 9999, as for [Time.MarshalJSON]. *)
Definition format_time (t : Time) : option string :=
  let secs := t / 1000000000 in
  let nanos := t mod 1000000000 in
  let days := secs / 86400 in
  let rem := secs mod 86400 in
  let '(y, m, d) := civil_from_days days in
  if (0 <=? y) && (y <=? 9999) then
    Some (pad 4 y ++ "-" ++ pad 2 m ++ "-" ++ pad 2 d ++ "T"
          ++ pad 2 (rem / 3600) ++ ":" ++ pad 2 (rem mod 3600 / 60) ++ ":"
          ++ pad 2 (rem mod 60) ++ fraction nanos ++ "Z")%string
  else None.

Definition hex_digit (n : Z) : ascii :=
  match String.get (Z.to_nat n) "0123456789abcdef" with
  | Some c => c
  | None => "0"%char
  end.

Definition escape (c : ascii) : string :=
  let n := Z.of_N (N_of_ascii c) in
  if n =? 34 then "\" ++ dq
  else if n =? 92 then "\\"
  else if n =? 10 then "\n"
  else if n =? 13 then "\r"
  else if n =? 9 then "\t"
  else if (n <? 32) || (n =? 60) || (n =? 62) || (n =? 38)
       then "\u00" ++ String (hex_digit (n / 16)) (String (hex_digit (n mod 16)) EmptyString)
  else String c EmptyString.

Fixpoint escape_all (s : string) : string :=
  match s with
  | EmptyString => EmptyString
  | String c s' => escape c ++ escape_all s'
  end.

Definition quote (s : string) : string := dq ++ escape_all s ++ dq.

Definition encode_task (t : Task) : option string :=
  created ← format_time (CreatedAt t);
  updated ← format_time (UpdatedAt t);
  Some ("{" ++ quote "id" ++ ":" ++ itoa (ID t)
        ++ "," ++ quote "description" ++ ":" ++ quote (Description t)
        ++ "," ++ quote "status" ++ ":" ++ quote (Status t)
        ++ "," ++ quote "createdAt" ++ ":" ++ quote created
        ++ "," ++ quote "updatedAt" ++ ":" ++ quote updated ++ "}")%string.

Definition encode (s : slice Task) : error + string :=
  match s with
  | Nil => inr "null"%string
  | Slice l =>
      match mapM encode_task l with
      | Some objs => inr ("[" ++ String.concat "," objs ++ "]")%string
      | None => inl (JsonError
          "json: error calling MarshalJSON for type time.Time: Time.MarshalJSON: year outside of range [0,9999]")
      end
  end.

(** Reading the canonical text back. *)

Fixpoint expect (p s : string) : option string :=
  match p, s with
  | EmptyString, _ => Some s
  | String a p', String b s' => if Ascii.eqb a b then expect p' s' else None
  | _, _ => None
  end.

Definition is_digit (c : ascii) : bool := bool_decide (is_Some (digit_of c)).

(** The longest prefix of [s] made of characters that satisfy [p], and the
    rest. *)
Fixpoint span (p : ascii → bool) (s : string) : string * string :=
  match s with
  | String c s' =>
      if p c then let '(a, b) := span p s' in (String c a, b) else (EmptyString, s)
  | EmptyString => (EmptyString, EmptyString)
  end.

Definition parse_int (s : string) : option (Z * string) :=
  let '(text, rest) := span (λ c, is_digit c || Ascii.eqb c "-") s in
  v ← Atoi text;
  Some (v, rest).

Definition hex_val (c : ascii) : option Z :=
  let n := Z.of_N (N_of_ascii c) in
  if (48 <=? n) && (n <=? 57) then Some (n - 48)
  else if (97 <=? n) && (n <=? 102) then Some (n - 87)
  else None.

(** After the opening quote: the content up to the closing quote, with the
    escapes undone, and the rest of the input. *)
Fixpoint unquote (s : string) : option (string * string) :=
  match s with
  | EmptyString => None
  | String c s' =>
      if Ascii.eqb c "034" then Some (EmptyString, s')
      else if Ascii.eqb c "\" then
        match s' with
        | String "u" (String "0" (String "0" (String h (String l s'')))) =>
            hi ← hex_val h;
            lo ← hex_val l;
            '(content, rest) ← unquote s'';
            Some (String (ascii_of_N (Z.to_N (hi * 16 + lo))) content, rest)
        | String e s'' =>
            d ← (if Ascii.eqb e "034" then Some "034"%char
                 else if Ascii.eqb e "\" then Some "\"%char
                 else if Ascii.eqb e "n" then Some "010"%char
                 else if Ascii.eqb e "r" then Some "013"%char
                 else if Ascii.eqb e "t" then Some "009"%char
                 else None);
            '(content, rest) ← unquote s'';
            Some (String d content, rest)
        | EmptyString => None
        end
      else
        '(content, rest) ← unquote s';
        Some (String c content, rest)
  end.

Definition parse_string (s : string) : option (string * string) :=
  s ← expect dq s;
  unquote s.

Definition field (width : nat) (sep : string) (s : string) : option (Z * string) :=
  n ← parse_digits (substring 0 width s) 0;
  rest ← expect sep (substring width (String.length s - width) s);
  Some (n, rest).

(** [time.Parse(time.RFC3339, s)] on the texts [format_time] writes. *)
Definition parse_time (s : string) : option Time :=
  '(y, s) ← field 4 "-" s;
  '(m, s) ← field 2 "-" s;
  '(d, s) ← field 2 "T" s;
  '(h, s) ← field 2 ":" s;
  '(mi, s) ← field 2 ":" s;
  '(sec, s) ← field 2 EmptyString s;
  nanos ← match s with
          | String "." s' =>
              let '(ds, z) := span is_digit s' in
              _ ← expect "Z" z;
              parse_digits
                (ds ++ String.concat EmptyString (replicate (9 - String.length ds) "0"%string)) 0
          | _ => Some 0
          end;
  Some ((((days_from_civil y m d * 24 + h) * 60 + mi) * 60 + sec) * 1000000000 + nanos).

Definition parse_task (s : string) : option (Task * string) :=
  s ← expect ("{" ++ quote "id" ++ ":") s;
  '(id, s) ← parse_int s;
  s ← expect ("," ++ quote "description" ++ ":") s;
  '(description, s) ← parse_string s;
  s ← expect ("," ++ quote "status" ++ ":") s;
  '(status, s) ← parse_string s;
  s ← expect ("," ++ quote "createdAt" ++ ":") s;
  '(created, s) ← parse_string s;
  createdAt ← parse_time created;
  s ← expect ("," ++ quote "updatedAt" ++ ":") s;
  '(updated, s) ← parse_string s;
  updatedAt ← parse_time updated;
  s ← expect "}" s;
  Some (mkTask id description status createdAt updatedAt, s).

(** The objects of an array, after its opening bracket. *)
Fixpoint parse_tasks (fuel : nat) (s : string) : option (list Task) :=
  match fuel with
  | O => None
  | S fuel' =>
      '(t, rest) ← parse_task s;
      match rest with
      | String "]" EmptyString => Some [t]
      | String "," rest' => ts ← parse_tasks fuel' rest'; Some (t :: ts)
      | _ => None
      end
  end.

Definition parse (data : string) : option (slice Task) :=
  if String.eqb data "null" then Some Nil
  else if String.eqb data "[]" then Some (Slice [])
  else
    rest ← expect "[" data;
    ts ← parse_tasks (String.length data) rest;
    Some (Slice ts).

(** The text is accepted when it is the canonical text of what was read. *)
Definition canonical (data : string) (s : slice Task) : bool :=
  match encode s with
  | inr data' => String.eqb data data'
  | inl _ => false
  end.

(** [json.Unmarshal(data, &dst)]: [null] leaves [dst] as it is, an array
    replaces it, an error leaves it as it is. *)
Definition decode (data : string) (dst : slice Task) : slice Task * option error :=
  match parse data with
  | Some s =>
      if canonical data s
      then (match s with Nil => dst | Slice _ => s end, None)
      else (dst, Some (JsonError "invalid JSON input"))
  | None =>
      (dst, Some (JsonError
         (if String.eqb data EmptyString then "unexpected end of JSON input"
          else "invalid JSON input")))
  end.

End GoJson.

#[global] Instance goJson : JsonCodec := {|
  Marshal := GoJson.encode;
  Unmarshal := GoJson.decode
|}.

(** ** Vocabulary of the specification *)

(** The world a later run of the program finds: the files and the clock go
    on, the trace starts empty. *)
Definition next_process (w : World) : World := mkWorld (fs w) (clock w) (ticks w) [].

(** The invariant of the data model on one task. *)
Definition valid_task (t : Task) : Prop :=
  Status t ∈ statuses ∧ (CreatedAt t ≤ UpdatedAt t)%Z.

(** The codec is faithful on [s]: it marshals [s], and reads the text back
    as [s]. *)
Definition faithful {json : JsonCodec} (s : slice Task) : Prop :=
  ∃ data, Marshal s = inr data ∧ ∀ dst, Unmarshal data dst = (s, None).

(** Number of tasks of [l] whose id is [id]. *)
Definition matches (id : Z) (l : list Task) : nat :=
  length (filter (λ t, ID t = id) l).

(** What the loops of [Update], [MarkInProgress] and [MarkDone] compute on
    a sequence of cells, [k] being the number of clock readings taken
    before: every task with the id gets [assign] and the next reading. *)
Fixpoint touched (id : Z) (assign : Task → Task) (clk : nat → Time) (k : nat)
  (l : list Task) : list Task :=
  match l with
  | [] => []
  | t :: l' =>
      if (ID t =? id)%Z
      then set_UpdatedAt (clk k) (assign t) :: touched id assign clk (S k) l'
      else t :: touched id assign clk k l'
  end.

Section Scenarios.
Context {json : JsonCodec}.

(** One [Add] per description, in order; the created tasks are collected. *)
Fixpoint AddAll (descriptions : list string) (r : JsonTaskRepository)
  : IO (JsonTaskRepository * list Task) :=
  match descriptions with
  | [] => mret (r, [])
  | d :: ds =>
      '(r, (task, _)) ← Add d r;
      '(r, created) ← AddAll ds r;
      mret (r, task :: created)
  end.

(** Three tasks are added to an empty repository, the second is deleted,
    a fourth is added. *)
Definition add3_delete2_add (file a b c d : string) : IO (JsonTaskRepository * Task) :=
  '(r, _) ← AddAll [a; b; c] (mkRepo file Nil);
  '(r, _) ← Delete 2 r;
  '(r, (task, _)) ← Add d r;
  mret (r, task).

(** The world after [os.WriteFile(name, data, perm)] was accepted. *)
Definition written (name data : string) (w : World) : World :=
  set_fs (mkFS (<[name := data]> (files (fs w))) (no_read (fs w)) (no_write (fs w)))
         (emit (EvWriteFile name data) w).

(** What [save] returns and the world it leaves. *)
Definition save_error (r : JsonTaskRepository) (w : World) : option error :=
  match Marshal (tasks r) with
  | inl err => Some (Errorf "failed to marshal tasks: " err)
  | inr data =>
      if decide (filename r ∈ no_write (fs w))
      then Some (PathError "open" (filename r) EACCES)
      else None
  end.

Definition save_world (r : JsonTaskRepository) (w : World) : World :=
  match Marshal (tasks r) with
  | inl err => w
  | inr data =>
      let w' := emit (EvWriteFile (filename r) data) w in
      if decide (filename r ∈ no_write (fs w)) then w'
      else set_fs (mkFS (<[filename r := data]> (files (fs w)))
                        (no_read (fs w)) (no_write (fs w))) w'
  end.

(** The task [Add] creates and the repository it leaves. *)
Definition new_task (description : string) (r : JsonTaskRepository) (w : World) : Task :=
  mkTask (Z.of_nat (len (tasks r)) + 1) description "todo"
         (clock w (ticks w)) (clock w (S (ticks w))).

Definition added (description : string) (r : JsonTaskRepository) (w : World)
  : JsonTaskRepository :=
  mkRepo (filename r) (append (tasks r) (new_task description r w)).

(** [op] does on [r] nothing but [save]: it returns [r] as it is, together
    with what [save] returns. *)
Definition only_saves (op : JsonTaskRepository → IO (JsonTaskRepository * option error))
  (r : JsonTaskRepository) (w : World) : Prop :=
  op r w = (err ← save r; mret (r, err)) w.

End Scenarios.

(** The [switch] of [main], on its own. *)
Definition dispatch `{json : JsonCodec} (command : string) (args : list string)
    (repo : JsonTaskRepository) : IO (JsonTaskRepository * option error) :=
  if String.eqb command "add" then add args repo
  else if String.eqb command "update" then update args repo
  else if String.eqb command "delete" then delete args repo
  else if String.eqb command "mark-in-progress" then markInProgress args repo
  else if String.eqb command "mark-done" then markDone args repo
  else if String.eqb command "list" then list_ args repo
  else printUsage;; os_Exit 1.

(** What the construction of the repository adds to the trace: the read,
    and the write that creates the file when the read found none. *)
Definition construction_events `{json : JsonCodec} (file : string) (w : World) : list Event :=
  EvReadFile file ::
  match files (fs w) !! file, Marshal (Slice []) with
  | None, inr data => [EvWriteFile file data]
  | _, _ => []
  end.

(** The error kinds of the specification. *)
Definition PersistenceError (e : error) : Prop :=
  ∃ op path errno, e = PathError op path errno.

(** Sample data for the examples: three tasks with ids 1, 2, 3, a list in
    which id 3 occurs twice, and a world with no file, every path readable
    and writable, and a clock that advances by one second per reading from
    2024-05-01T12:00:00Z. *)
Definition sample (id : Z) (description status : string) : Task :=
  mkTask id description status 1714564800000000000%Z 1714564800000000000%Z.

Definition three_tasks : list Task :=
  [sample 1 "buy milk" "todo"; sample 2 "call home" "in-progress"; sample 3 "pay rent" "done"].

Definition with_duplicate : list Task :=
  [sample 1 "buy milk" "todo"; sample 3 "pay rent" "done"; sample 3 "walk dog" "todo"].

Definition seconds_clock (k : nat) : Time :=
  (1714564800000000000 + Z.of_nat k * 1000000000)%Z.

Definition fresh_world : World := mkWorld (mkFS ∅ ∅ ∅) seconds_clock 0 [].

Definition sample_repo : JsonTaskRepository := mkRepo "tasks.json" (Slice three_tasks).
Definition duplicate_repo : JsonTaskRepository := mkRepo "tasks.json" (Slice with_duplicate).

(** The text [goJson] writes for the three tasks. *)
Definition three_tasks_json : string :=
  Eval vm_compute in
    match GoJson.encode (Slice three_tasks) with
    | inr data => data
    | inl _ => EmptyString
    end.

(** A world in which [tasks.json] holds [content]. *)
Definition world_with (content : string) : World :=
  mkWorld (mkFS {["tasks.json" := content]} ∅ ∅) seconds_clock 0 [].

(** A wall clock that is set back by one second after its first reading. *)
Definition backstep_clock (k : nat) : Time :=
  match k with
  | O => 1714564801000000000%Z
  | S _ => 1714564800000000000%Z
  end.

Definition backstep_world : World := mkWorld (mkFS ∅ ∅ ∅) backstep_clock 0 [].

(** The same, with [tasks.json] refused for writing. *)
Definition readonly_world : World :=
  mkWorld (mkFS ∅ ∅ {["tasks.json"]}) seconds_clock 0 [].

(** What the loop of [Delete] leaves of a list when it does not panic: a
    task with the id is removed, and the task that follows a removed task
    is kept without being looked at (it has moved into the cell the loop
    has just left). *)
Fixpoint skipdel (id : Z) (l : list Task) : list Task :=
  match l with
  | [] => []
  | t :: l' =>
      if (ID t =? id)%Z then
        match l' with
        | [] => []
        | u :: l'' => u :: skipdel id l''
        end
      else t :: skipdel id l'
  end.

Definition deleted (id : Z) (s : slice Task) : slice Task :=
  match s with
  | Nil => Nil
  | Slice l => Slice (skipdel id l)
  end.

(** The last task of the list has the id, and so has a task before it. *)
Definition last_and_earlier (id : Z) (l : list Task) : bool :=
  match reverse l with
  | y :: before => (ID y =? id)%Z && existsb (λ t, (ID t =? id)%Z) before
  | [] => false
  end.

(** The line [list] prints for a task. *)
Definition task_line (t : Task) : string :=
  (itoa (ID t) ++ " " ++ Description t ++ " " ++ Status t) ++ nl.

(** The world after the construction has read the file and [list] has
    printed the tasks [l]: one more read and one line per task in the
    trace, and nothing else changed. *)
Definition listed (l : list Task) (w : World) : World :=
  mkWorld (fs w) (clock w) (ticks w)
          (log w ++ EvReadFile "tasks.json" :: ((λ t, EvStdout (task_line t)) <$> l)).

(** The lines of the usage text. *)
Definition usage_lines : list string :=
  ["Usage: task-tracker <command> [args]"; "Commands:"; "  add <description>";
   "  update <id> <description>"; "  delete <id>"; "  mark-in-progress <id>";
   "  mark-done <id>"; "  list [status]"].

(** The message of each command for a wrong number of operands. *)
Definition help_text (command : string) : string :=
  if String.eqb command "add"
  then "help: task-tracker add " ++ dq ++ "task description" ++ dq
  else if String.eqb command "update"
  then "help: task-tracker update 1 " ++ dq ++ "new task description" ++ dq
  else if String.eqb command "delete" then "help: task-tracker delete 1"
  else if String.eqb command "mark-in-progress" then "help: task-tracker mark-in-progress 1"
  else if String.eqb command "mark-done" then "help: task-tracker mark-done 1"
  else "help: task-tracker list" ++ nl ++ "task-cli list done" ++ nl
       ++ "task-tracker list todo" ++ nl ++ "task-tracker list in-progress".

(** The text [goJson] writes for the list in which id 3 occurs twice. *)
Definition with_duplicate_json : string :=
  Eval vm_compute in
    match GoJson.encode (Slice with_duplicate) with
    | inr data => data
    | inl _ => EmptyString
    end.

(** The file of the repository holds the marshalled list of the
    repository. *)
Definition persisted `{json : JsonCodec} (r : JsonTaskRepository) (w : World) : Prop :=
  ∃ data, Marshal (tasks r) = inr data ∧ files (fs w) !! filename r = Some data.

(** A world in which [tasks.json] holds [content] and is refused for
    writing, and one in which it is refused for reading. *)
Definition locked_world_with (content : string) : World :=
  mkWorld (mkFS {["tasks.json" := content]} ∅ {["tasks.json"]}) seconds_clock 0 [].

Definition unreadable_world_with (content : string) : World :=
  mkWorld (mkFS {["tasks.json" := content]} {["tasks.json"]} ∅) seconds_clock 0 [].

(** The slice after the loop of [Update], [MarkInProgress] or [MarkDone]
    entered in the world [w]. *)
Definition touched_slice (id : Z) (assign : Task → Task) (w : World) (s : slice Task)
  : slice Task :=
  match s with
  | Nil => Nil
  | Slice l => Slice (touched id assign (clock w) (ticks w) l)
  end.

(** The validation failures of the dispatcher, on [os.Args]. *)
Definition arity_ok (command : string) (n : nat) : bool :=
  if String.eqb command "add" then Nat.eqb n 1
  else if String.eqb command "update" then Nat.eqb n 2
  else if String.eqb command "delete" then Nat.eqb n 1
  else if String.eqb command "mark-in-progress" then Nat.eqb n 1
  else if String.eqb command "mark-done" then Nat.eqb n 1
  else if String.eqb command "list" then Nat.leb n 1
  else false.

Definition commands : list string :=
  ["add"; "update"; "delete"; "mark-in-progress"; "mark-done"; "list"].

Definition takes_id (command : string) : bool :=
  Contains ["update"; "delete"; "mark-in-progress"; "mark-done"] command.

Inductive validation_failure : list string → Prop :=
| unrecognized_command prog command args :
    Contains commands command = false →
    validation_failure (prog :: command :: args)
| wrong_operand_count prog command args :
    Contains commands command = true →
    arity_ok command (length args) = false →
    validation_failure (prog :: command :: args)
| unparseable_id prog command a0 args :
    takes_id command = true →
    Atoi a0 = None →
    validation_failure (prog :: command :: a0 :: args)
| invalid_status prog a0 :
    Contains statuses a0 = false →
    validation_failure [prog; "list"; a0].

(** ** Running the monad *)

Local Close Scope string_scope.

Lemma bind_run {A B} (m : IO A) (f : A → IO B) (w : World) :
  (m ≫= f) w = match m w with
               | (Ret a, w') => f a w'
               | (Exit c, w') => (Exit c, w')
               | (Panic msg, w') => (Panic msg, w')
               end.
Proof. reflexivity. Qed.

Lemma bind_ret {A B} (m : IO A) (f : A → IO B) (w w' : World) (a : A) :
  m w = (Ret a, w') → (m ≫= f) w = f a w'.
Proof. intros H. rewrite bind_run, H. reflexivity. Qed.

Section Repository.
Context {json : JsonCodec}.

(** [save] always returns. *)
Lemma save_run r w : save r w = (Ret (save_error r w), save_world r w).
Proof.
  unfold save, save_error, save_world.
  destruct (Marshal (tasks r)) as [err|data]; [reflexivity|].
  unfold WriteFile. destruct (decide _); reflexivity.
Qed.

Lemma save_world_clock r w :
  clock (save_world r w) = clock w ∧ ticks (save_world r w) = ticks w.
Proof.
  unfold save_world. destruct (Marshal (tasks r)); [done|].
  destruct (decide _); done.
Qed.

Lemma Add_run description r w :
  Add description r w =
    (Ret (added description r w,
          (new_task description r w,
           save_error (added description r w) (tick (tick w)))),
     save_world (added description r w) (tick (tick w))).
Proof.
  unfold Add. rewrite bind_run. cbn. rewrite bind_run. cbn.
  rewrite bind_run, save_run. reflexivity.
Qed.

(** *** The range loops *)

Lemma range_from_app {S} (body : nat → S → IO S) n1 n2 i s w :
  range_from body i (n1 + n2) s w =
    (range_from body i n1 s ≫= range_from body (i + n1) n2) w.
Proof.
  revert i s w. induction n1 as [|n1 IH]; intros i s w.
  - cbn. rewrite Nat.add_0_r. reflexivity.
  - cbn [Nat.add range_from]. rewrite !bind_run.
    destruct (body i s w) as [[s'|c|msg] w']; try reflexivity.
    rewrite IH, bind_run. replace (i + Datatypes.S n1) with (Datatypes.S i + n1) by lia.
    reflexivity.
Qed.

Lemma world_eta w k :
  k = ticks w → mkWorld (fs w) (clock w) k (log w) = w.
Proof. intros ->. by destruct w. Qed.

(** The loop of [Update], [MarkInProgress] and [MarkDone] from index [i] on:
    it returns, and rewrites the cells from [i] on as [touched] says. *)
Lemma touch_loop id assign n : ∀ i (l : list Task) w,
  i + n = length l →
  range_from (touch_body id assign) i n (Slice l) w =
    (Ret (Slice (take i l ++ touched id assign (clock w) (ticks w) (drop i l))),
     mkWorld (fs w) (clock w) (ticks w + matches id (drop i l)) (log w)).
Proof.
  induction n as [|n IH]; intros i l w Hlen.
  - cbn. rewrite drop_ge, take_ge by lia. cbn.
    rewrite app_nil_r, world_eta by (unfold matches; cbn; lia). reflexivity.
  - destruct (lookup_lt_is_Some_2 l i) as [t Ht]; [lia|].
    cbn [range_from]. rewrite bind_run. unfold touch_body at 1. cbn [elems].
    rewrite Ht, (drop_S _ _ _ Ht). cbn [touched]. unfold matches.
    destruct (ID t =? id)%Z eqn:E.
    + apply Z.eqb_eq in E.
      rewrite filter_cons_True by done. cbn [length].
      rewrite bind_run. cbn [Now_UTC slice_alter]. unfold mret, IO_ret.
      rewrite IH by (rewrite !length_alter; lia).
      cbn [tick clock ticks fs log].
      rewrite !drop_alter_lt by lia.
      erewrite take_S_r; last first.
      { rewrite !list_lookup_alter_eq, Ht. reflexivity. }
      rewrite !take_alter_ge by lia.
      rewrite <- app_assoc. cbn [app]. unfold matches.
      rewrite Nat.add_succ_r. reflexivity.
    + apply Z.eqb_neq in E.
      rewrite filter_cons_False by done.
      unfold mret, IO_ret. rewrite IH by lia.
      rewrite (take_S_r _ _ _ Ht), <- app_assoc. reflexivity.
Qed.

(** The same loop over the whole slice of a repository. *)
Lemma touch_run id assign (s : slice Task) w :
  range_from (touch_body id assign) 0 (len s) s w =
    (Ret (match s with
          | Nil => Nil
          | Slice l => Slice (touched id assign (clock w) (ticks w) l)
          end),
     mkWorld (fs w) (clock w) (ticks w + matches id (elems s)) (log w)).
Proof.
  destruct s as [|l].
  - cbn. rewrite world_eta by (unfold matches; cbn; lia). reflexivity.
  - unfold len. cbn [elems]. rewrite touch_loop by lia. rewrite take_0, drop_0. reflexivity.
Qed.

Lemma touched_length id assign clk l : ∀ k,
  length (touched id assign clk k l) = length l.
Proof.
  induction l as [|t l IH]; intros k; cbn; [done|].
  destruct (ID t =? id)%Z; cbn; by rewrite IH.
Qed.

(** Cell [i] after the loop: a task with the id got [assign] and the clock
    reading numbered by the matches before it; any other task is as it was. *)
Lemma touched_lookup id assign clk l : ∀ k i t,
  l !! i = Some t →
  touched id assign clk k l !! i =
    Some (if (ID t =? id)%Z
          then set_UpdatedAt (clk (k + matches id (take i l))) (assign t)
          else t).
Proof.
  induction l as [|x l IH]; intros k i t Hi; [done|].
  destruct i as [|i]; cbn in Hi.
  - injection Hi as ->. cbn. destruct (ID t =? id)%Z; cbn; [|done].
    unfold matches. cbn. by rewrite Nat.add_0_r.
  - cbn [touched take]. unfold matches.
    destruct (ID x =? id)%Z eqn:E.
    + apply Z.eqb_eq in E. rewrite filter_cons_True by done.
      cbn [lookup list_lookup length]. rewrite (IH _ _ _ Hi).
      unfold matches. do 3 f_equal. 
      destruct (ID t =? id)%Z; [|done]. do 2 f_equal. lia.
    + apply Z.eqb_neq in E. rewrite filter_cons_False by done.
      cbn. by rewrite (IH _ _ _ Hi).
Qed.

Lemma touched_absent id assign clk l : ∀ k,
  Forall (λ t, ID t ≠ id) l → touched id assign clk k l = l.
Proof.
  induction l as [|t l IH]; intros k Hl; [done|].
  inversion Hl as [|?? Ht Hl']; subst. cbn.
  destruct (Z.eqb_spec (ID t) id); [done|]. by rewrite IH.
Qed.

Lemma matches_absent id l : Forall (λ t, ID t ≠ id) l → matches id l = 0.
Proof.
  unfold matches. induction 1 as [|t l Ht Hl IH]; [done|].
  by rewrite filter_cons_False.
Qed.

(** The loop of [Delete] over a stretch of cells none of which has the id:
    nothing moves. *)
Lemma delete_loop_nomatch id n : ∀ i (cells : list Task) ts w,
  (∀ j t, i ≤ j < i + n → cells !! j = Some t → ID t ≠ id) →
  range_from (delete_body id) i n (cells, ts) w = (Ret (cells, ts), w).
Proof.
  induction n as [|n IH]; intros i cells ts w Hno; [reflexivity|].
  cbn [range_from]. rewrite bind_run. unfold delete_body at 1.
  destruct (cells !! i) as [t|] eqn:Ht.
  - destruct (Z.eqb_spec (ID t) id) as [E|E].
    + exfalso. apply (Hno i t); [lia|done|done].
    + unfold mret, IO_ret. apply IH. intros j t' Hj. apply Hno. lia.
  - unfold mret, IO_ret. apply IH. intros j t' Hj. apply Hno. lia.
Qed.

(** The loop of [Delete] has no effect on the world; it returns or panics,
    and whatever it leaves in the slice was a cell of the array. *)
Lemma delete_loop_sound (P : Task → Prop) id n : ∀ i (cells : list Task) ts w,
  Forall P cells → Forall P (elems ts) →
  match range_from (delete_body id) i n (cells, ts) w with
  | (Ret (cells', ts'), w') => w' = w ∧ Forall P cells' ∧ Forall P (elems ts')
  | (Panic _, w') => w' = w
  | (Exit _, _) => False
  end.
Proof.
  induction n as [|n IH]; intros i cells ts w Hc Hts; [done|].
  cbn [range_from]. rewrite bind_run. unfold delete_body at 1.
  destruct (cells !! i) as [t|] eqn:Ht; [|by apply IH].
  destruct (ID t =? id)%Z; [|by apply IH].
  destruct (decide _) as [Hle|Hgt]; [|done].
  unfold mret, IO_ret. apply IH.
  - apply Forall_app. split.
    + apply Forall_app. split; [by apply Forall_take|by apply Forall_drop].
    + by apply Forall_drop.
  - cbn [elems]. apply Forall_app. split; [by apply Forall_take|by apply Forall_drop].
Qed.

(** The loop of [Delete] when exactly one cell has the id. *)
Lemma delete_loop_found id (pre post : list Task) x w :
  ID x = id →
  Forall (λ t, ID t ≠ id) pre → Forall (λ t, ID t ≠ id) post →
  ∃ cells',
    range_from (delete_body id) 0 (length (pre ++ x :: post))
               (pre ++ x :: post, Slice (pre ++ x :: post)) w
    = (Ret (cells', Slice (pre ++ post)), w).
Proof.
  intros Hx Hpre Hpost.
  rewrite length_app. cbn [length].
  rewrite range_from_app.
  erewrite bind_ret; last first.
  { apply delete_loop_nomatch. intros j t Hj Hjt.
    rewrite lookup_app_l in Hjt by lia.
    eapply (Forall_lookup_1 _ _ _ _ Hpre Hjt). }
  cbn [range_from Nat.add]. rewrite bind_run. unfold delete_body at 1.
  rewrite list_lookup_middle by done.
  rewrite (proj2 (Z.eqb_eq _ _) Hx).
  destruct (decide _) as [_|Hgt]; last first.
  { exfalso. apply Hgt. unfold len. cbn [elems]. rewrite length_app. cbn. lia. }
  unfold mret, IO_ret. cbn [elems].
  rewrite take_app_length.
  replace (drop (S (length pre)) (pre ++ x :: post)) with post; last first.
  { change (x :: post) with ([x] ++ post).
    rewrite app_assoc. rewrite drop_app_length'; [done|]. rewrite length_app. cbn. lia. }
  eexists. apply delete_loop_nomatch.
  intros j t Hj Hjt.
  destruct post as [|p post]; [cbn in Hj; lia|].
  assert (Forall (λ t, ID t ≠ id) ((pre ++ p :: post) ++
            drop (length (pre ++ p :: post)) (pre ++ x :: p :: post))) as Hall.
  { apply Forall_app. split; [by apply Forall_app|].
    replace (pre ++ x :: p :: post) with ((pre ++ [x]) ++ p :: post)
      by (by rewrite <- app_assoc).
    rewrite drop_app_ge by (rewrite !length_app; cbn; lia).
    by apply Forall_drop. }
  eapply (Forall_lookup_1 _ _ _ _ Hall Hjt).
Qed.

(** In a list with pairwise distinct ids, the id of cell [k] occurs nowhere
    else. *)
Lemma distinct_ids_split (l : list Task) k x :
  NoDup (ID <$> l) → l !! k = Some x →
  Forall (λ t, ID t ≠ ID x) (take k l) ∧ Forall (λ t, ID t ≠ ID x) (drop (S k) l).
Proof.
  intros Hnd Hk.
  rewrite <- (take_drop_middle l k x Hk) in Hnd.
  rewrite fmap_app, fmap_cons in Hnd.
  apply NoDup_app in Hnd as (_ & Hdisj & Hnd).
  apply NoDup_cons in Hnd as [Hnotin _].
  split; apply Forall_forall; intros t Ht E.
  - apply (Hdisj (ID t)).
    + apply list_elem_of_fmap. eauto.
    + rewrite E. left.
  - apply Hnotin. rewrite <- E. apply list_elem_of_fmap. eauto.
Qed.

(** *** The methods, run *)

Lemma touch_save_run id assign r w :
  (ts ← range_from (touch_body id assign) 0 (len (tasks r)) (tasks r);
   let r := mkRepo (filename r) ts in
   err ← save r;
   mret (r, err)) w
  = let r' := mkRepo (filename r)
                (match tasks r with
                 | Nil => Nil
                 | Slice l => Slice (touched id assign (clock w) (ticks w) l)
                 end) in
    let w' := mkWorld (fs w) (clock w) (ticks w + matches id (elems (tasks r))) (log w) in
    (Ret (r', save_error r' w'), save_world r' w').
Proof.
  rewrite bind_run, touch_run. cbv zeta. rewrite bind_run, save_run. reflexivity.
Qed.

(** A mutation that finds no task with the id is [save] and nothing else. *)
Lemma touch_save_absent id assign r w :
  Forall (λ t, ID t ≠ id) (elems (tasks r)) →
  (ts ← range_from (touch_body id assign) 0 (len (tasks r)) (tasks r);
   let r := mkRepo (filename r) ts in
   err ← save r;
   mret (r, err)) w
  = (err ← save r; mret (r, err)) w.
Proof.
  intros Habs. rewrite touch_save_run. cbv zeta.
  rewrite matches_absent by done.
  rewrite world_eta by lia.
  replace (mkRepo _ _) with r; last first.
  { destruct r as [f [|l]]; cbn in *; [done|]. by rewrite touched_absent. }
  rewrite bind_run, save_run. reflexivity.
Qed.

Lemma Delete_absent id r w :
  Forall (λ t, ID t ≠ id) (elems (tasks r)) →
  Delete id r w = (err ← save r; mret (r, err)) w.
Proof.
  intros Habs. unfold Delete. rewrite bind_run.
  rewrite delete_loop_nomatch; last first.
  { intros j t _ Hj. eapply (Forall_lookup_1 _ _ _ _ Habs Hj). }
  by destruct r.
Qed.

(** A successful [save]: one write of the marshalled slice, which the file
    then holds. *)
Lemma save_ok r w data :
  Marshal (tasks r) = inr data →
  filename r ∉ no_write (fs w) →
  ∃ w', save r w = (Ret None, w')
        ∧ log w' = log w ++ [EvWriteFile (filename r) data]
        ∧ files (fs w') !! filename r = Some data.
Proof.
  intros Hm Hw. rewrite save_run. unfold save_error, save_world. rewrite Hm.
  destruct (decide _) as [|_]; [done|].
  eexists. split; [reflexivity|]. split; [reflexivity|].
  cbn. by rewrite lookup_insert_eq.
Qed.

(** A [save] the file system refuses: the write was attempted with the
    marshalled slice, and no file changed. *)
Lemma save_refused r w data :
  Marshal (tasks r) = inr data →
  filename r ∈ no_write (fs w) →
  save r w = (Ret (Some (PathError "open" (filename r) EACCES)),
              emit (EvWriteFile (filename r) data) w).
Proof.
  intros Hm Hw. rewrite save_run. unfold save_error, save_world. rewrite Hm.
  by destruct (decide _).
Qed.

Lemma filter_loop status (l : list Task) : ∀ acc,
  elems (foldl (λ filteredTasks t,
                  if String.eqb (Status t) status then append filteredTasks t
                  else filteredTasks) acc l)
  = elems acc ++ filter (λ t, Status t = status) l.
Proof.
  induction l as [|t l IH]; intros acc; cbn [foldl].
  - by rewrite app_nil_r.
  - rewrite IH. destruct (String.eqb_spec (Status t) status) as [E|E].
    + rewrite filter_cons_True by done. cbn [append elems]. by rewrite <- app_assoc.
    + by rewrite filter_cons_False.
Qed.

Lemma Delete_found id r (pre post : list Task) x w :
  elems (tasks r) = pre ++ x :: post →
  ID x = id →
  Forall (λ t, ID t ≠ id) pre → Forall (λ t, ID t ≠ id) post →
  Delete id r w =
    (Ret (mkRepo (filename r) (Slice (pre ++ post)),
          save_error (mkRepo (filename r) (Slice (pre ++ post))) w),
     save_world (mkRepo (filename r) (Slice (pre ++ post))) w).
Proof.
  intros Hl Hx Hpre Hpost. unfold Delete, len.
  destruct r as [f [|l]]; cbn [tasks elems filename] in *.
  { by destruct pre. }
  subst l.
  destruct (delete_loop_found id pre post x w Hx Hpre Hpost) as [cells' Hloop].
  rewrite bind_run, Hloop, bind_run, save_run. reflexivity.
Qed.

Lemma filter_keep_all {A} (P : A → Prop) `{∀ x, Decision (P x)} (l : list A) :
  Forall P l → filter P l = l.
Proof.
  induction 1 as [|x l Hx Hl IH]; [done|]. by rewrite filter_cons_True, IH.
Qed.

Lemma AddAll_run descriptions : ∀ r w,
  ∃ r' created w',
    AddAll descriptions r w = (Ret (r', created), w')
    ∧ filename r' = filename r
    ∧ tasks r' = match created with [] => tasks r | _ => Slice (elems (tasks r) ++ created) end
    ∧ ID <$> created
      = (λ k, Z.of_nat (len (tasks r) + k)) <$> seq 1 (length descriptions).
Proof.
  induction descriptions as [|d ds IH]; intros r w.
  - exists r, [], w. done.
  - cbn [AddAll]. rewrite bind_run, Add_run.
    destruct (IH (added d r w) (save_world (added d r w) (tick (tick w))))
      as (r' & created & w' & Hrun & Hf & Ht & Hids).
    rewrite bind_run, Hrun.
    exists r', (new_task d r w :: created), w'.
    split; [reflexivity|]. split; [done|]. split.
    + rewrite Ht. cbn [added tasks append elems].
      destruct created; by rewrite <- ?app_assoc.
    + cbn [length seq fmap list_fmap new_task ID]. f_equal; [lia|].
      rewrite Hids, <- (fmap_S_seq 1), <- list_fmap_compose.
      apply list_fmap_ext. intros _ k _. cbn.
      unfold added, len. cbn [tasks append elems]. rewrite length_app. cbn. f_equal. lia.
Qed.

(** With pairwise distinct ids, [Delete] returns. *)
Lemma Delete_returns id r w :
  NoDup (ID <$> elems (tasks r)) →
  ∃ r' err w', Delete id r w = (Ret (r', err), w').
Proof.
  intros Hnd.
  destruct (decide (Forall (λ t, ID t ≠ id) (elems (tasks r)))) as [Habs|Hpres].
  - rewrite (Delete_absent _ _ _ Habs), bind_run, save_run. by eexists _, _, _.
  - apply not_Forall_Exists in Hpres; [|apply _].
    apply Exists_exists in Hpres as (x & Hx & Hid).
    apply list_elem_of_lookup in Hx as [k Hk].
    assert (ID x = id) as E by (by destruct (decide (ID x = id))).
    destruct (distinct_ids_split _ _ _ Hnd Hk) as [Hpre Hpost]. rewrite E in Hpre, Hpost.
    rewrite (Delete_found id r _ _ x w (eq_sym (take_drop_middle _ _ _ Hk)) E Hpre Hpost).
    by eexists _, _, _.
Qed.

(** When [Delete] returns, every task it leaves was in the list. *)
Lemma Delete_sound (P : Task → Prop) id r w :
  Forall P (elems (tasks r)) →
  match Delete id r w with
  | (Ret (r', _), _) => Forall P (elems (tasks r'))
  | (Panic _, _) => True
  | (Exit _, _) => False
  end.
Proof.
  intros HP. unfold Delete. rewrite bind_run.
  pose proof (delete_loop_sound P id (len (tasks r)) 0 (elems (tasks r)) (tasks r) w HP HP)
    as Hloop.
  destruct (range_from _ _ _ _ _) as [[[cells' ts']|c|msg] w']; [|done..].
  destruct Hloop as (_ & _ & Hts). rewrite bind_run, save_run. done.
Qed.

(** The loops of [Update], [MarkInProgress] and [MarkDone] keep the
    invariant when the readings they take are not before the creation of
    the tasks, and they leave [CreatedAt] alone. *)
Lemma touched_valid id assign clk (l : list Task) : ∀ k,
  (∀ t, Status t ∈ statuses → Status (assign t) ∈ statuses) →
  (∀ t, CreatedAt (assign t) = CreatedAt t) →
  Forall valid_task l →
  (∀ k' t, k ≤ k' → t ∈ l → (CreatedAt t ≤ clk k')%Z) →
  Forall valid_task (touched id assign clk k l)
  ∧ CreatedAt <$> touched id assign clk k l = CreatedAt <$> l.
Proof.
  intros k Hst Hcr. revert k.
  induction l as [|t l IH]; intros k Hv Hclk; [done|].
  inversion Hv as [|?? [Hs Ht] Hv']; subst. cbn [touched].
  destruct (ID t =? id)%Z.
  - destruct (IH (S k) Hv') as [IH1 IH2].
    { intros k' t' Hk' Hin. apply Hclk; [lia|by right]. }
    split.
    + constructor; [|done]. split; cbn; [by apply Hst|].
      rewrite Hcr. apply Hclk; [lia|by left].
    + cbn. by rewrite Hcr, IH2.
  - destruct (IH k Hv') as [IH1 IH2].
    { intros k' t' Hk' Hin. apply Hclk; [lia|by right]. }
    split; [by constructor|]. cbn. by rewrite IH2.
Qed.

Lemma three_tasks_valid : Forall valid_task three_tasks.
Proof. repeat constructor; cbn; unfold statuses; set_solver. Qed.

Lemma three_tasks_created (clk : nat → Time) :
  (∀ k, 1714564800000000000 ≤ clk k)%Z →
  ∀ (k : nat) t, t ∈ three_tasks → (CreatedAt t ≤ clk k)%Z.
Proof.
  intros Hclk k t Ht. unfold three_tasks in Ht.
  repeat (apply elem_of_cons in Ht as [->|Ht]; [apply Hclk|]).
  by apply elem_of_nil in Ht.
Qed.

(** *** Construction *)

Lemma new_repo_absent file w :
  files (fs w) !! file = None →
  newJsonTaskRepository file w =
    match Marshal (Slice []) with
    | inl err => (Ret (inl err), emit (EvReadFile file) w)
    | inr data =>
        if decide (file ∈ no_write (fs w))
        then (Ret (inl (PathError "open" file EACCES)),
              emit (EvWriteFile file data) (emit (EvReadFile file) w))
        else (Ret (inr (mkRepo file Nil)),
              set_fs (mkFS (<[file := data]> (files (fs w))) (no_read (fs w))
                           (no_write (fs w)))
                     (emit (EvWriteFile file data) (emit (EvReadFile file) w)))
    end.
Proof.
  intros Hnone. unfold newJsonTaskRepository, load.
  rewrite !bind_run. unfold ReadFile. cbn [filename]. rewrite Hnone. cbn [IsNotExist].
  destruct (Marshal (Slice [])) as [err|data]; [reflexivity|].
  rewrite bind_run. unfold WriteFile. cbn [fs emit].
  destruct (decide _); reflexivity.
Qed.

Lemma new_repo_present file w content :
  files (fs w) !! file = Some content →
  newJsonTaskRepository file w =
    (Ret (match Unmarshal (if decide (file ∈ no_read (fs w)) then EmptyString else content)
                          Nil with
          | (_, Some err) => inl err
          | (ts, None) => inr (mkRepo file ts)
          end),
     emit (EvReadFile file) w).
Proof.
  intros Hsome. unfold newJsonTaskRepository, load.
  rewrite !bind_run. unfold ReadFile. cbn [filename]. rewrite Hsome.
  destruct (decide _); cbn [IsNotExist tasks];
    destruct (Unmarshal _ Nil) as [ts [err|]]; reflexivity.
Qed.

Lemma file_events_emit_stdout text w :
  file_events (log (emit (EvStdout text) w)) = file_events (log w).
Proof. unfold file_events. cbn. rewrite List.filter_app. cbn. by rewrite app_nil_r. Qed.

Lemma file_events_emit_stderr text w :
  file_events (log (emit (EvStderr text) w)) = file_events (log w).
Proof. unfold file_events. cbn. rewrite List.filter_app. cbn. by rewrite app_nil_r. Qed.

(** The construction returns; it reads no clock, and its file accesses are
    [construction_events]; when the file is there, no file changes. *)
Lemma new_repo_ret file w :
  ∃ res w0,
    newJsonTaskRepository file w = (Ret res, w0)
    ∧ clock w0 = clock w ∧ ticks w0 = ticks w
    ∧ log w0 = log w ++ construction_events file w
    ∧ (is_Some (files (fs w) !! file) → fs w0 = fs w).
Proof.
  unfold construction_events.
  destruct (files (fs w) !! file) as [content|] eqn:Hf.
  - rewrite (new_repo_present _ _ _ Hf). eexists _, _. split; [reflexivity|].
    cbn. destruct (Marshal (Slice [])); done.
  - rewrite (new_repo_absent _ _ Hf).
    destruct (Marshal (Slice [])) as [err|data].
    + eexists _, _. split; [reflexivity|]. cbn. repeat split; try done.
      all: by intros [? ?].
    + destruct (decide _); eexists _, _; (split; [reflexivity|]); cbn;
        rewrite <- ?app_assoc; repeat split; try done; by intros [? ?].
Qed.

(** *** The dispatcher *)

(** [main] after a successful construction: the [switch], then the report
    of its error. *)
Lemma run_constructed prog command args w repo w0 :
  newJsonTaskRepository "tasks.json" w = (Ret (inr repo), w0) →
  run (prog :: command :: args) w =
    match dispatch command args repo w0 with
    | (Ret (_, Some e), w1) => (1%Z, emit (EvStderr ("Error: " ++ Error e ++ nl)%string) w1)
    | (Ret (_, None), w1) => (0%Z, w1)
    | (Exit c, w1) => (c, w1)
    | (Panic _, w1) => (2%Z, w1)
    end.
Proof.
  intros Hnew. unfold run, main. rewrite bind_run, Hnew, bind_run.
  fold (dispatch command args repo).
  destruct (dispatch command args repo w0) as [[[repo' [e|]]|c|msg] w1]; reflexivity.
Qed.

Lemma printUsage_run w :
  ∃ w1, printUsage w = (Ret tt, w1)
        ∧ fs w1 = fs w ∧ ticks w1 = ticks w
        ∧ file_events (log w1) = file_events (log w).
Proof.
  eexists. split; [reflexivity|]. cbn. repeat split.
  unfold file_events. rewrite !List.filter_app. cbn. by rewrite !app_nil_r.
Qed.

(** On a validation failure the [switch] calls no method of the repository:
    it returns an error in the world it was entered in, or prints the usage
    text and exits with 1. *)
Lemma dispatch_failure prog command args repo w0 :
  validation_failure (prog :: command :: args) →
  (∃ e, dispatch command args repo w0 = (Ret (repo, Some e), w0))
  ∨ (∃ w1, dispatch command args repo w0 = (Exit 1, w1)
           ∧ fs w1 = fs w0 ∧ ticks w1 = ticks w0
           ∧ file_events (log w1) = file_events (log w0)).
Proof.
  intros Hfail. inversion Hfail as [? ? ? Hc|? ? ? Hc Har|? ? ? ? Hid Hat|? ? Hst]; subst.
  - right. unfold Contains, commands in Hc. cbn [existsb] in Hc.
    repeat (apply orb_false_elim in Hc as [? Hc]).
    unfold dispatch. repeat match goal with H : String.eqb _ _ = false |- _ =>
                              rewrite H; clear H end.
    destruct (printUsage_run w0) as (w1 & Hrun & ?).
    exists w1. split; [|done].
    by rewrite bind_run, Hrun.
  - left. unfold Contains, commands in Hc. cbn [existsb] in Hc.
    unfold dispatch, arity_ok in *.
    repeat match goal with
           | |- context [String.eqb command ?s] =>
               destruct (String.eqb_spec command s) as [->|?]
           end;
      try discriminate Hc;
      destruct args as [|a0 [|a1 [|a2 args]]]; try discriminate Har;
      eexists; reflexivity.
  - left. unfold takes_id, Contains in Hid. cbn [existsb] in Hid.
    unfold dispatch.
    repeat match goal with
           | |- context [String.eqb command ?s] =>
               destruct (String.eqb_spec command s) as [->|?]
           end;
      try discriminate Hid;
      destruct args0 as [|a1 [|a2 args]];
      cbn [update delete markInProgress markDone]; rewrite ?Hat;
      eexists; reflexivity.
  - left. change (dispatch "list" [a0] repo w0) with (list_ [a0] repo w0).
    unfold list_. rewrite Hst. eexists; reflexivity.
Qed.

(** *** Runs in which every write is accepted *)

Lemma save_accepted r w data :
  Marshal (tasks r) = inr data →
  filename r ∉ no_write (fs w) →
  save r w = (Ret None, written (filename r) data w).
Proof.
  intros Hm Hw. rewrite save_run. unfold save_error, save_world. rewrite Hm.
  destruct (decide _) as [Hin|_]; [by destruct (Hw Hin)|reflexivity].
Qed.

Lemma new_repo_created file w data :
  files (fs w) !! file = None →
  Marshal (Slice []) = inr data →
  file ∉ no_write (fs w) →
  newJsonTaskRepository file w =
    (Ret (inr (mkRepo file Nil)), written file data (emit (EvReadFile file) w)).
Proof.
  intros Hnone Hm Hw. rewrite (new_repo_absent _ _ Hnone), Hm.
  destruct (decide _) as [Hin|_]; [by destruct (Hw Hin)|reflexivity].
Qed.

Lemma new_repo_loaded file w s data :
  files (fs w) !! file = Some data →
  file ∉ no_read (fs w) →
  Unmarshal data Nil = (s, None) →
  newJsonTaskRepository file w = (Ret (inr (mkRepo file s)), emit (EvReadFile file) w).
Proof.
  intros Hsome Hr Hu. rewrite (new_repo_present _ _ _ Hsome).
  destruct (decide _) as [Hin|_]; [by destruct (Hr Hin)|]. by rewrite Hu.
Qed.

Lemma Add_accepted description r w data :
  Marshal (append (tasks r) (new_task description r w)) = inr data →
  filename r ∉ no_write (fs w) →
  Add description r w =
    (Ret (added description r w, (new_task description r w, None)),
     written (filename r) data (tick (tick w))).
Proof.
  intros Hm Hw. rewrite Add_run. unfold save_error, save_world, added.
  cbn [tasks filename]. rewrite Hm. cbn [fs tick].
  destruct (decide _) as [Hin|_]; [by destruct (Hw Hin)|reflexivity].
Qed.

Lemma touch_save_accepted id assign f (l : list Task) w data :
  Marshal (Slice (touched id assign (clock w) (ticks w) l)) = inr data →
  f ∉ no_write (fs w) →
  (ts ← range_from (touch_body id assign) 0 (len (tasks (mkRepo f (Slice l))))
                   (tasks (mkRepo f (Slice l)));
   let r := mkRepo (filename (mkRepo f (Slice l))) ts in
   err ← save r;
   mret (r, err)) w
  = (Ret (mkRepo f (Slice (touched id assign (clock w) (ticks w) l)), None),
     written f data (mkWorld (fs w) (clock w) (ticks w + matches id l) (log w))).
Proof.
  intros Hm Hw. rewrite touch_save_run. cbv zeta. unfold save_error, save_world.
  cbn [tasks filename elems fs]. rewrite Hm.
  destruct (decide _) as [Hin|_]; [by destruct (Hw Hin)|reflexivity].
Qed.

End Repository.

(** ** The claims *)

(** C7. [List] with the empty filter returns the slice of the repository as
    it is; with a non-empty filter [s] it returns the tasks whose status is
    [s], in their order; and it never returns an error, also when no task
    is returned. *)
Theorem C7_List_filters_by_status (r : JsonTaskRepository) :
  List EmptyString r = (tasks r, None)
  ∧ ∀ s, s ≠ EmptyString →
      snd (List s r) = None
      ∧ elems (fst (List s r)) = filter (λ t, Status t = s) (elems (tasks r)).
Proof.
  split; [reflexivity|]. intros s Hs. unfold List.
  destruct (String.eqb_spec s EmptyString) as [E|_]; [done|]. cbn [negb fst snd].
  split; [reflexivity|]. by rewrite filter_loop.
Qed.

Lemma C7_witness :
  "done"%string ≠ EmptyString
  ∧ snd (List "done" sample_repo) = None
  ∧ elems (fst (List "done" sample_repo)) = [sample 3 "pay rent" "done"].
Proof.
  split; [done|].
  apply (proj2 (C7_List_filters_by_status sample_repo)).
  done.
Defined.

(** C2. When no task has the id, each of [Update], [Delete],
    [MarkInProgress] and [MarkDone] leaves the repository as it is and
    returns what [save] returns: the save is still performed, as one write
    of the whole marshalled list, and when that write is accepted the
    method returns no error. *)
Theorem C2_absent_id_silent_success `{json : JsonCodec}
    (r : JsonTaskRepository) (id : Z) (description : string) (w : World) :
  Forall (λ t, ID t ≠ id) (elems (tasks r)) →
  only_saves (Update id description) r w
  ∧ only_saves (Delete id) r w
  ∧ only_saves (MarkInProgress id) r w
  ∧ only_saves (MarkDone id) r w
  ∧ ∀ data, Marshal (tasks r) = inr data → filename r ∉ no_write (fs w) →
      ∃ w', (err ← save r; mret (r, err)) w = (Ret (r, None), w')
            ∧ log w' = log w ++ [EvWriteFile (filename r) data]
            ∧ files (fs w') !! filename r = Some data.
Proof.
  intros Habs. unfold only_saves.
  split; [by apply touch_save_absent|].
  split; [by apply Delete_absent|].
  split; [by apply touch_save_absent|].
  split; [by apply touch_save_absent|].
  intros data Hm Hw.
  destruct (save_ok r w data Hm Hw) as (w' & Hs & Hlog & Hfile).
  exists w'. rewrite bind_run, Hs. done.
Qed.

Lemma C2_witness :
  Forall (λ t, ID t ≠ 7%Z) (elems (tasks sample_repo))
  ∧ only_saves (Update 7 "water plants") sample_repo fresh_world
  ∧ only_saves (Delete 7) sample_repo fresh_world
  ∧ only_saves (MarkInProgress 7) sample_repo fresh_world
  ∧ only_saves (MarkDone 7) sample_repo fresh_world
  ∧ ∃ data w',
      Marshal (tasks sample_repo) = inr data
      ∧ (filename sample_repo ∉ no_write (fs fresh_world))
      ∧ Update 7 "water plants" sample_repo fresh_world = (Ret (sample_repo, None), w')
      ∧ log w' = [EvWriteFile "tasks.json" data]
      ∧ files (fs w') !! "tasks.json"%string = Some data.
Proof.
  assert (Forall (λ t, ID t ≠ 7%Z) (elems (tasks sample_repo))) as H
    by (repeat constructor; discriminate).
  destruct (C2_absent_id_silent_success sample_repo 7 "water plants" fresh_world H)
    as (HU & HD & HP & HM & Hsave).
  split; [exact H|]. do 4 (split; [assumption|]).
  assert (∃ data, Marshal (tasks sample_repo) = inr data) as [data Hm]
    by (eexists; vm_compute; reflexivity).
  assert (filename sample_repo ∉ no_write (fs fresh_world)) as Hw
    by apply not_elem_of_empty.
  destruct (Hsave data Hm Hw) as (w' & Hrun & Hlog & Hfile).
  exists data, w'. rewrite HU.
  split; [exact Hm|]. split; [exact Hw|]. split; [exact Hrun|].
  split; [exact Hlog|exact Hfile].
Defined.

(** C4. [Add] appends the new task to the slice before it saves: the
    repository it leaves holds the task whatever [save] returns, and what
    [save] offers to the file is the list with the task in it.  When the
    file system refuses the write, [Add] returns that error, no file has
    changed, and the task stays in the slice. *)
Theorem C4_Add_keeps_task_when_save_fails `{json : JsonCodec}
    (r : JsonTaskRepository) (description : string) (w : World) :
  ∃ task err w',
    Add description r w
    = (Ret (mkRepo (filename r) (append (tasks r) task), (task, err)), w')
    ∧ Description task = description
    ∧ ∀ data, Marshal (append (tasks r) task) = inr data →
        log w' = log w ++ [EvWriteFile (filename r) data]
        ∧ (filename r ∈ no_write (fs w) →
             (∃ e, err = Some e ∧ PersistenceError e) ∧ fs w' = fs w).
Proof.
  exists (new_task description r w),
         (save_error (added description r w) (tick (tick w))),
         (save_world (added description r w) (tick (tick w))).
  split; [apply Add_run|]. split; [reflexivity|].
  intros data Hm. unfold save_error, save_world, added. cbn [tasks filename].
  rewrite Hm. cbn [fs tick].
  destruct (decide _) as [Hin|Hnot].
  - split; [reflexivity|]. intros _. split; [|reflexivity].
    eexists. split; [reflexivity|]. by eexists _, _, _.
  - split; [reflexivity|]. done.
Qed.

Lemma C4_witness :
  ∃ task err w' data,
    Add "water plants" sample_repo readonly_world
    = (Ret (mkRepo "tasks.json" (append (tasks sample_repo) task), (task, err)), w')
    ∧ Marshal (append (tasks sample_repo) task) = inr data
    ∧ filename sample_repo ∈ no_write (fs readonly_world)
    ∧ log w' = [EvWriteFile "tasks.json" data]
    ∧ (∃ e, err = Some e ∧ PersistenceError e)
    ∧ fs w' = fs readonly_world
    ∧ elems (append (tasks sample_repo) task) = three_tasks ++ [task].
Proof.
  set (r := sample_repo).
  destruct (C4_Add_keeps_task_when_save_fails r "water plants" readonly_world)
    as (task & err & w' & Hrun & Hd & Hsave).
  assert (task = new_task "water plants" r readonly_world) as Htask.
  { rewrite Add_run in Hrun. congruence. }
  assert (∃ data, Marshal (append (tasks r) task) = inr data) as [data Hm].
  { rewrite Htask. eexists. vm_compute. reflexivity. }
  assert (filename r ∈ no_write (fs readonly_world)) as Hin.
  { cbn. apply elem_of_singleton. reflexivity. }
  destruct (Hsave data Hm) as [Hlog Hfail].
  destruct (Hfail Hin) as [He Hfs].
  exists task, err, w', data.
  split; [exact Hrun|]. split; [exact Hm|]. split; [exact Hin|].
  split; [exact Hlog|]. split; [exact He|]. split; [exact Hfs|reflexivity].
Defined.

(** C1. From an empty task list, the n-th call of [Add] creates the task
    with id n, whether or not the saves succeed: the id is the length of
    the list plus one.  So after three tasks are added, task 2 is deleted
    and a fourth task is added, the new task has id 3, as has the task that
    was added third: the list holds the ids 1, 3, 3. *)
Theorem C1_ids_count_based `{json : JsonCodec} :
  (∀ descriptions r w,
     len (tasks r) = 0 →
     ∃ r' created w',
       AddAll descriptions r w = (Ret (r', created), w')
       ∧ elems (tasks r') = created
       ∧ ID <$> created = Z.of_nat <$> seq 1 (length descriptions))
  ∧ (∀ file a b c d w,
       ∃ r' task third w',
         add3_delete2_add file a b c d w = (Ret (r', task), w')
         ∧ ID task = 3%Z
         ∧ Description task = d
         ∧ ID <$> elems (tasks r') = [1; 3; 3]%Z
         ∧ elems (tasks r') !! 1 = Some third
         ∧ Description third = c
         ∧ elems (tasks r') !! 2 = Some task).
Proof.
  split.
  - intros descriptions r w Hempty.
    destruct (AddAll_run descriptions r w) as (r' & created & w' & Hrun & _ & Ht & Hids).
    exists r', created, w'. split; [done|]. split.
    + rewrite Ht. unfold len in Hempty. apply length_zero_iff_nil in Hempty.
      destruct created; [done|]. cbn [elems]. by rewrite Hempty.
    + rewrite Hids, Hempty. done.
  - intros file a b c d w. unfold add3_delete2_add.
    destruct (AddAll_run [a; b; c] (mkRepo file Nil) w)
      as (r3 & created & w3 & Hrun & Hf & Ht & Hids).
    rewrite bind_run, Hrun.
    destruct created as [|t1 [|t2 [|t3 [|]]]]; try discriminate Hids.
    cbn in Hids. injection Hids as H1 H2 H3. cbn [tasks elems app] in Ht.
    rewrite bind_run.
    rewrite (Delete_found 2 r3 [t1] [t3] t2) by
      (rewrite ?Ht; try done; repeat constructor; lia).
    rewrite bind_run, Add_run.
    eexists _, _, t3, _. split; [reflexivity|].
    cbn. rewrite H1, H3. repeat split; try done.
    revert Hrun. cbn [AddAll].
    rewrite !bind_run, !Add_run, !bind_run. cbn [mret IO_ret].
    rewrite !Add_run, !bind_run. cbn [mret IO_ret].
    rewrite !Add_run. cbn [mret IO_ret].
    intros [= _ _ _ <- _]. reflexivity.
Qed.

Lemma C1_witness :
  len (tasks (mkRepo "tasks.json" Nil)) = 0
  ∧ ∃ r' created w',
      AddAll ["buy milk"; "call home"; "pay rent"; "walk dog"]%string
             (mkRepo "tasks.json" Nil) fresh_world
      = (Ret (r', created), w')
      ∧ elems (tasks r') = created
      ∧ ID <$> created = [1; 2; 3; 4]%Z.
Proof.
  split; [reflexivity|].
  exact (proj1 C1_ids_count_based
           ["buy milk"; "call home"; "pay rent"; "walk dog"]%string
           (mkRepo "tasks.json" Nil) fresh_world eq_refl).
Defined.

(** C6. In a list whose ids are pairwise distinct, [Delete] of the id of the
    task in cell [k] returns, and leaves the tasks before cell [k] followed
    by the tasks after it: that one task is gone, and the others are in
    their order.  These are the tasks of the list whose id is not the one
    given. *)
Theorem C6_Delete_removes_the_task `{json : JsonCodec}
    (r : JsonTaskRepository) (id : Z) (k : nat) (x : Task) (w : World) :
  NoDup (ID <$> elems (tasks r)) →
  elems (tasks r) !! k = Some x →
  ID x = id →
  ∃ r' err w',
    Delete id r w = (Ret (r', err), w')
    ∧ elems (tasks r') = take k (elems (tasks r)) ++ drop (S k) (elems (tasks r))
    ∧ elems (tasks r') = filter (λ t, ID t ≠ id) (elems (tasks r))
    ∧ length (elems (tasks r')) + 1 = length (elems (tasks r)).
Proof.
  intros Hnd Hk Hx.
  destruct (distinct_ids_split _ _ _ Hnd Hk) as [Hpre Hpost]. rewrite Hx in Hpre, Hpost.
  pose proof (take_drop_middle _ _ _ Hk) as Hl.
  eexists _, _, _. split.
  { apply (Delete_found id r _ _ x w (eq_sym Hl) Hx Hpre Hpost). }
  cbn [tasks elems]. split; [done|]. split.
  - rewrite <- Hl at 3. rewrite filter_app, filter_cons_False by (intros E; by apply E).
    by rewrite !filter_keep_all.
  - rewrite <- Hl at 3. rewrite !length_app. cbn. lia.
Qed.

Lemma C6_witness :
  NoDup (ID <$> elems (tasks sample_repo))
  ∧ elems (tasks sample_repo) !! 1 = Some (sample 2 "call home" "in-progress")
  ∧ ∃ r' err w',
      Delete 2 sample_repo fresh_world = (Ret (r', err), w')
      ∧ elems (tasks r') = [sample 1 "buy milk" "todo"; sample 3 "pay rent" "done"].
Proof.
  set (r := sample_repo).
  assert (NoDup (ID <$> elems (tasks r))) as Hnd
    by (apply (bool_decide_unpack _); exact I).
  split; [exact Hnd|]. split; [reflexivity|].
  destruct (C6_Delete_removes_the_task r 2 1 _ fresh_world Hnd eq_refl eq_refl)
    as (r' & err & w' & Hrun & Hl & _).
  exists r', err, w'. split; [exact Hrun|exact Hl].
Defined.

(** C10. [Update], [MarkInProgress] and [MarkDone] change every task that
    has the id, not only the first: whatever the cell [i] in which a task
    with the id sits, after the call that cell holds the task with the new
    description (or status) and with [UpdatedAt] set to a clock reading
    taken during the call, the one after the readings taken for the matches
    in the cells before it. *)
Theorem C10_every_match_is_changed `{json : JsonCodec}
    (r : JsonTaskRepository) (id : Z) (description : string) (w : World)
    (i : nat) (t : Task) :
  elems (tasks r) !! i = Some t →
  ID t = id →
  let reading := clock w (ticks w + matches id (take i (elems (tasks r)))) in
  (∃ r' err w',
     Update id description r w = (Ret (r', err), w')
     ∧ elems (tasks r') !! i
       = Some (set_UpdatedAt reading (set_Description description t)))
  ∧ (∃ r' err w',
       MarkInProgress id r w = (Ret (r', err), w')
       ∧ elems (tasks r') !! i
         = Some (set_UpdatedAt reading (set_Status "in-progress" t)))
  ∧ (∃ r' err w',
       MarkDone id r w = (Ret (r', err), w')
       ∧ elems (tasks r') !! i
         = Some (set_UpdatedAt reading (set_Status "done" t))).
Proof.
  intros Hi Hid reading.
  assert (∀ assign,
    ∃ r' err w',
      (ts ← range_from (touch_body id assign) 0 (len (tasks r)) (tasks r);
       let r := mkRepo (filename r) ts in
       err ← save r;
       mret (r, err)) w = (Ret (r', err), w')
      ∧ elems (tasks r') !! i = Some (set_UpdatedAt reading (assign t))) as Hall.
  { intros assign. rewrite touch_save_run. cbv zeta.
    eexists _, _, _. split; [reflexivity|].
    destruct r as [f [|l]]; cbn [tasks elems] in *; [done|].
    rewrite (touched_lookup _ _ _ _ _ _ _ Hi).
    by rewrite (proj2 (Z.eqb_eq _ _) Hid). }
  split; [apply Hall|]. split; apply Hall.
Qed.

Lemma C10_witness :
  elems (tasks duplicate_repo) !! 2 = Some (sample 3 "walk dog" "todo")
  ∧ (∃ r' err w',
       Update 3 "water plants" duplicate_repo fresh_world = (Ret (r', err), w')
       ∧ elems (tasks r') !! 2
         = Some (mkTask 3 "water plants" "todo" 1714564800000000000%Z 1714564801000000000%Z))
  ∧ (∃ r' err w',
       MarkInProgress 3 duplicate_repo fresh_world = (Ret (r', err), w')
       ∧ elems (tasks r') !! 2
         = Some (mkTask 3 "walk dog" "in-progress" 1714564800000000000%Z 1714564801000000000%Z))
  ∧ (∃ r' err w',
       MarkDone 3 duplicate_repo fresh_world = (Ret (r', err), w')
       ∧ elems (tasks r') !! 2
         = Some (mkTask 3 "walk dog" "done" 1714564800000000000%Z 1714564801000000000%Z)).
Proof.
  split; [reflexivity|].
  exact (C10_every_match_is_changed duplicate_repo 3 "water plants" fresh_world 2
           (sample 3 "walk dog" "todo") eq_refl eq_refl).
Defined.

(** C8. Let every task of the list have a status among todo, in-progress
    and done and [CreatedAt ≤ UpdatedAt], and let every clock reading from
    now on be no earlier than the [CreatedAt] of every task of the list.
    [Add] creates its task with status todo, [CreatedAt] the first reading
    and [UpdatedAt] the second, and the list it returns has the two
    properties exactly when the second reading is no earlier than the
    first.  [Update], [MarkInProgress] and [MarkDone] return a list with
    the two properties, in which every [CreatedAt] is as it was, every task
    with the id has the new description (or status) and [UpdatedAt] set to
    a reading taken during the call, and every other task is as it was.
    [Delete], whenever it returns, which it does when the ids are pairwise
    distinct, leaves only tasks of the list, so the two properties hold. *)
Theorem C8_invariant_preserved `{json : JsonCodec}
    (r : JsonTaskRepository) (id : Z) (description : string) (w : World) :
  Forall valid_task (elems (tasks r)) →
  (∀ k t, ticks w ≤ k → t ∈ elems (tasks r) → (CreatedAt t ≤ clock w k)%Z) →
  (∃ r' task err w',
     Add description r w = (Ret (r', (task, err)), w')
     ∧ Status task = "todo"%string
     ∧ CreatedAt task = clock w (ticks w)
     ∧ UpdatedAt task = clock w (S (ticks w))
     ∧ (Forall valid_task (elems (tasks r'))
        ↔ (clock w (ticks w) ≤ clock w (S (ticks w)))%Z))
  ∧ (∀ op assign,
       (op, assign) ∈ [(Update id description, set_Description description);
                       (MarkInProgress id, set_Status "in-progress");
                       (MarkDone id, set_Status "done")] →
       ∃ r' err w',
         op r w = (Ret (r', err), w')
         ∧ Forall valid_task (elems (tasks r'))
         ∧ CreatedAt <$> elems (tasks r') = CreatedAt <$> elems (tasks r)
         ∧ ∀ i t, elems (tasks r) !! i = Some t →
             elems (tasks r') !! i
             = Some (if (ID t =? id)%Z
                     then set_UpdatedAt
                            (clock w (ticks w + matches id (take i (elems (tasks r)))))
                            (assign t)
                     else t))
  ∧ match Delete id r w with
    | (Ret (r', _), _) =>
        Forall valid_task (elems (tasks r')) ∧ elems (tasks r') ⊆ elems (tasks r)
    | (Panic _, _) => True
    | (Exit _, _) => False
    end
  ∧ (NoDup (ID <$> elems (tasks r)) → ∃ r' err w', Delete id r w = (Ret (r', err), w')).
Proof.
  intros Hv Hclk. split; [|split; [|split]].
  - rewrite Add_run. eexists _, _, _, _. split; [reflexivity|].
    do 3 (split; [reflexivity|]). cbn [added tasks append elems].
    rewrite Forall_app, Forall_singleton. unfold valid_task at 2.
    cbn [new_task Status CreatedAt UpdatedAt]. split.
    + by intros (_ & _ & Hle).
    + intros Hle. split; [done|]. split; [|done].
      unfold statuses. apply list_elem_of_here.
  - assert (∀ assign,
      (∀ t, Status t ∈ statuses → Status (assign t) ∈ statuses) →
      (∀ t, CreatedAt (assign t) = CreatedAt t) →
      ∃ r' err w',
        (ts ← range_from (touch_body id assign) 0 (len (tasks r)) (tasks r);
         let r := mkRepo (filename r) ts in
         err ← save r;
         mret (r, err)) w = (Ret (r', err), w')
        ∧ Forall valid_task (elems (tasks r'))
        ∧ CreatedAt <$> elems (tasks r') = CreatedAt <$> elems (tasks r)
        ∧ ∀ i t, elems (tasks r) !! i = Some t →
            elems (tasks r') !! i
            = Some (if (ID t =? id)%Z
                    then set_UpdatedAt
                           (clock w (ticks w + matches id (take i (elems (tasks r)))))
                           (assign t)
                    else t)) as Hall.
    { intros assign Hst Hcr. rewrite touch_save_run. cbv zeta.
      eexists _, _, _. split; [reflexivity|].
      destruct r as [f [|l]]; cbn [tasks elems] in *; [done|].
      destruct (touched_valid id assign (clock w) l (ticks w) Hst Hcr Hv Hclk) as [H1 H2].
      split; [exact H1|]. split; [exact H2|].
      intros i t Hi. apply (touched_lookup _ _ _ _ _ _ _ Hi). }
    intros op assign Hop.
    apply elem_of_cons in Hop as [[= -> ->]|Hop]; [by apply Hall|].
    apply elem_of_cons in Hop as [[= -> ->]|Hop].
    { apply Hall; [|done]. intros t _. cbn. unfold statuses.
      apply list_elem_of_further, list_elem_of_here. }
    apply elem_of_cons in Hop as [[= -> ->]|Hop].
    { apply Hall; [|done]. intros t _. cbn. unfold statuses.
      do 2 apply list_elem_of_further. apply list_elem_of_here. }
    by apply elem_of_nil in Hop.
  - assert (Forall (λ t, valid_task t ∧ t ∈ elems (tasks r)) (elems (tasks r))) as HP.
    { apply Forall_forall. intros t Ht. split; [|done].
      by eapply (proj1 (Forall_forall _ _) Hv). }
    pose proof (Delete_sound _ id r w HP) as Hd.
    destruct (Delete id r w) as [[[r' err]|c|msg] w']; [|done|done].
    apply Forall_and in Hd as [H1 H2]. split; [done|].
    intros t Ht. by eapply (proj1 (Forall_forall _ _) H2).
  - apply Delete_returns.
Qed.

Lemma C8_witness :
  Forall valid_task (elems (tasks sample_repo))
  ∧ (∀ k t, ticks fresh_world ≤ k → t ∈ elems (tasks sample_repo) →
       (CreatedAt t ≤ clock fresh_world k)%Z)
  ∧ (∀ k t, ticks backstep_world ≤ k → t ∈ elems (tasks sample_repo) →
       (CreatedAt t ≤ clock backstep_world k)%Z)
  ∧ (clock fresh_world (ticks fresh_world) ≤ clock fresh_world (S (ticks fresh_world)))%Z
  ∧ (∃ r' task err w',
       Add "water plants" sample_repo fresh_world = (Ret (r', (task, err)), w')
       ∧ Forall valid_task (elems (tasks r'))
       ∧ Status task = "todo"%string
       ∧ CreatedAt task = 1714564800000000000%Z
       ∧ UpdatedAt task = 1714564801000000000%Z)
  ∧ (∃ r' err w',
       MarkDone 2 sample_repo fresh_world = (Ret (r', err), w')
       ∧ Forall valid_task (elems (tasks r'))
       ∧ CreatedAt <$> elems (tasks r') = CreatedAt <$> three_tasks
       ∧ elems (tasks r') !! 1
         = Some (mkTask 2 "call home" "done" 1714564800000000000%Z (seconds_clock 0)))
  ∧ (∃ r' err w',
       Update 2 "water plants" sample_repo backstep_world = (Ret (r', err), w')
       ∧ Forall valid_task (elems (tasks r'))
       ∧ elems (tasks r') !! 1
         = Some (mkTask 2 "water plants" "in-progress" 1714564800000000000%Z
                        (backstep_clock 0)))
  ∧ (∃ r' err w', Delete 2 sample_repo fresh_world = (Ret (r', err), w')).
Proof.
  assert (∀ k t, ticks fresh_world ≤ k → t ∈ elems (tasks sample_repo) →
            (CreatedAt t ≤ clock fresh_world k)%Z) as Hclk.
  { intros k t _. apply three_tasks_created. intros k'. cbn. unfold seconds_clock. lia. }
  assert (∀ k t, ticks backstep_world ≤ k → t ∈ elems (tasks sample_repo) →
            (CreatedAt t ≤ clock backstep_world k)%Z) as Hclk'.
  { intros k t _. apply three_tasks_created. intros [|k']; cbn; lia. }
  assert (clock fresh_world (ticks fresh_world)
          ≤ clock fresh_world (S (ticks fresh_world)))%Z as Hmono
    by (cbn; unfold seconds_clock; lia).
  destruct (C8_invariant_preserved sample_repo 2 "water plants" fresh_world
              three_tasks_valid Hclk)
    as ((ra & task & ea & wa & HA & Hst & Hc & Hu & Hiff) & HT & _ & HD).
  destruct (C8_invariant_preserved sample_repo 2 "water plants" backstep_world
              three_tasks_valid Hclk') as (_ & HT' & _).
  split; [exact three_tasks_valid|]. split; [exact Hclk|]. split; [exact Hclk'|].
  split; [exact Hmono|]. split; [|split; [|split]].
  - exists ra, task, ea, wa. split; [exact HA|]. split; [exact (proj2 Hiff Hmono)|].
    split; [exact Hst|]. split; [exact Hc|exact Hu].
  - destruct (HT (MarkDone 2) (set_Status "done"))
      as (r' & err & w' & Hrun & Hvalid & Hcr & Hcell).
    { do 2 apply list_elem_of_further. apply list_elem_of_here. }
    exists r', err, w'. split; [exact Hrun|]. split; [exact Hvalid|].
    split; [exact Hcr|].
    exact (Hcell 1 (sample 2 "call home" "in-progress") eq_refl).
  - destruct (HT' (Update 2 "water plants") (set_Description "water plants"))
      as (r' & err & w' & Hrun & Hvalid & _ & Hcell).
    { apply list_elem_of_here. }
    exists r', err, w'. split; [exact Hrun|]. split; [exact Hvalid|].
    exact (Hcell 1 (sample 2 "call home" "in-progress") eq_refl).
  - apply HD. apply (bool_decide_unpack _). exact I.
Defined.

(** C8, as stated, fails for [Add]: it reads the clock twice, once for
    [CreatedAt] and once for [UpdatedAt].  With a wall clock that is set
    back between the two readings, both readings are no earlier than the
    [CreatedAt] of the tasks of the list, and yet the task [Add] creates
    has [CreatedAt] after [UpdatedAt]. *)
Lemma C8_counterexample :
  Forall valid_task (elems (tasks sample_repo))
  ∧ (∀ k t, t ∈ elems (tasks sample_repo) → (CreatedAt t ≤ clock backstep_world k)%Z)
  ∧ ∃ r' task err w',
      Add "water plants" sample_repo backstep_world = (Ret (r', (task, err)), w')
      ∧ CreatedAt task = 1714564801000000000%Z
      ∧ UpdatedAt task = 1714564800000000000%Z
      ∧ ¬ Forall valid_task (elems (tasks r')).
Proof.
  split; [exact three_tasks_valid|]. split.
  { intros k. apply three_tasks_created. intros [|k']; cbn; lia. }
  rewrite Add_run. eexists _, _, _, _. split; [reflexivity|].
  split; [reflexivity|]. split; [reflexivity|].
  intros Hv. unfold added in Hv. cbn [tasks append elems] in Hv.
  apply Forall_app in Hv as [_ Hv]. apply Forall_singleton in Hv as [_ Hle].
  cbn in Hle. lia.
Qed.

(** C5. The construction of the repository reads the file.  When there is
    no such file, it writes the marshalled empty list to it and, the write
    accepted, returns a repository whose slice is nil, the file now holding
    that text.  When the file is there and readable, its content is
    unmarshalled: on an error the construction fails with that error, and
    otherwise the repository holds what was unmarshalled.  When the
    construction fails, [main] reports the error and exits with 1: no
    command runs, and nothing happens after the construction but the error
    message. *)
Theorem C5_construction `{json : JsonCodec} (file : string) (w : World) :
  (files (fs w) !! file = None →
   ∀ data, Marshal (Slice []) = inr data →
     ∃ res w',
       newJsonTaskRepository file w = (Ret res, w')
       ∧ log w' = log w ++ [EvReadFile file; EvWriteFile file data]
       ∧ (file ∉ no_write (fs w) →
            res = inr (mkRepo file Nil) ∧ files (fs w') !! file = Some data))
  ∧ (∀ content, files (fs w) !! file = Some content → file ∉ no_read (fs w) →
       newJsonTaskRepository file w =
         (Ret (match Unmarshal content Nil with
               | (_, Some err) => inl err
               | (ts, None) => inr (mkRepo file ts)
               end),
          emit (EvReadFile file) w))
  ∧ (∀ prog command args err w',
       newJsonTaskRepository "tasks.json" w = (Ret (inl err), w') →
       run (prog :: command :: args) w
       = (1%Z, emit (EvStderr ("Error initializing repository: " ++ Error err ++ nl)%string) w')).
Proof.
  split; [|split].
  - intros Hnone data Hm. rewrite (new_repo_absent _ _ Hnone), Hm.
    destruct (decide _) as [Hin|Hnot]; eexists _, _; (split; [reflexivity|]); cbn;
      rewrite <- ?app_assoc; (split; [done|]); intros Hw; [done|].
    split; [done|]. by rewrite lookup_insert_eq.
  - intros content Hsome Hr. rewrite (new_repo_present _ _ _ Hsome).
    by destruct (decide _).
  - intros prog command args err w' Hnew. unfold run, main.
    rewrite bind_run, Hnew. reflexivity.
Qed.

Lemma C5_witness :
  files (fs fresh_world) !! "tasks.json"%string = None
  ∧ Marshal (Slice []) = inr "[]"%string
  ∧ (∃ w', newJsonTaskRepository "tasks.json" fresh_world
           = (Ret (inr (mkRepo "tasks.json" Nil)), w')
           ∧ log w' = [EvReadFile "tasks.json"; EvWriteFile "tasks.json" "[]"]
           ∧ files (fs w') !! "tasks.json"%string = Some "[]"%string)
  ∧ (∃ err,
       newJsonTaskRepository "tasks.json" (world_with "not json")
       = (Ret (inl err), emit (EvReadFile "tasks.json") (world_with "not json"))
       ∧ run ["task-tracker"; "list"]%string (world_with "not json")
         = (1%Z, emit (EvStderr ("Error initializing repository: " ++ Error err ++ nl)%string)
                   (emit (EvReadFile "tasks.json") (world_with "not json"))))
  ∧ newJsonTaskRepository "tasks.json" (world_with three_tasks_json)
    = (Ret (inr sample_repo), emit (EvReadFile "tasks.json") (world_with three_tasks_json)).
Proof.
  assert (files (fs fresh_world) !! "tasks.json"%string = None) as Hnone by reflexivity.
  assert (Marshal (Slice []) = inr "[]"%string) as Hm by reflexivity.
  split; [exact Hnone|]. split; [exact Hm|]. split; [|split].
  - destruct (proj1 (C5_construction "tasks.json" fresh_world) Hnone _ Hm)
      as (res & w' & Hrun & Hlog & Hw).
    destruct (Hw (not_elem_of_empty _)) as [-> Hfile].
    exists w'. split; [exact Hrun|]. split; [exact Hlog|exact Hfile].
  - destruct (C5_construction "tasks.json" (world_with "not json")) as (_ & Hpresent & Hmain).
    pose proof (Hpresent "not json"%string (lookup_singleton_eq _ _) (not_elem_of_empty _))
      as Hrun.
    eexists. split; [exact Hrun|].
    exact (Hmain "task-tracker"%string "list"%string [] _ _ Hrun).
  - destruct (C5_construction "tasks.json" (world_with three_tasks_json))
      as (_ & Hpresent & _).
    exact (Hpresent three_tasks_json (lookup_singleton_eq _ _) (not_elem_of_empty _)).
Defined.

(** C3. A run that fails the validation of the dispatcher (an unrecognized
    command name, a wrong number of operands, an id that does not parse, a
    status operand of list that is not a status) exits with 1, reads no
    clock and runs no method of the repository.  The repository is built
    before the command is looked at, though: the run reads the task file,
    and creates it with the marshalled empty list when there is none.
    These are its only file accesses, and a file that is there is left as
    it is.  Only a run without a command name exits with 1 without any
    file access. *)
Theorem C3_validation_failure_exits_1 `{json : JsonCodec} (w : World) :
  (∀ Args, validation_failure Args →
     ∃ res w0 w1,
       newJsonTaskRepository "tasks.json" w = (Ret res, w0)
       ∧ run Args w = (1%Z, w1)
       ∧ fs w1 = fs w0
       ∧ ticks w1 = ticks w
       ∧ file_events (log w1)
         = file_events (log w) ++ construction_events "tasks.json" w
       ∧ (is_Some (files (fs w) !! "tasks.json"%string) → fs w1 = fs w))
  ∧ (∀ Args, length Args < 2 →
       ∃ w1, run Args w = (1%Z, w1)
             ∧ fs w1 = fs w
             ∧ file_events (log w1) = file_events (log w)).
Proof.
  split.
  - intros Args Hfail.
    destruct (new_repo_ret "tasks.json" w) as (res & w0 & Hnew & _ & Hticks & Hlog & Hfs).
    assert (file_events (log w0)
            = file_events (log w) ++ construction_events "tasks.json" w) as Hev.
    { rewrite Hlog. unfold file_events. rewrite List.filter_app. f_equal.
      unfold construction_events.
      destruct (files (fs w) !! "tasks.json"%string); destruct (Marshal (Slice [])); done. }
    exists res, w0.
    assert (∀ w1, fs w1 = fs w0 → ticks w1 = ticks w0 →
              file_events (log w1) = file_events (log w0) →
              fs w1 = fs w0 ∧ ticks w1 = ticks w
              ∧ file_events (log w1)
                = file_events (log w) ++ construction_events "tasks.json" w
              ∧ (is_Some (files (fs w) !! "tasks.json"%string) → fs w1 = fs w)) as Hsame.
    { intros w1 H1 H2 H3. rewrite H1, H2, H3. repeat split; auto. }
    assert (∃ prog command args, Args = prog :: command :: args) as (prog & command & args & ->)
      by (destruct Hfail; by eexists _, _, _).
    destruct res as [err|repo].
    + eexists. split; [exact Hnew|]. split.
      { unfold run, main. rewrite bind_run, Hnew. reflexivity. }
      apply Hsame; [reflexivity|reflexivity|apply file_events_emit_stderr].
    + rewrite (run_constructed _ _ _ _ _ _ Hnew).
      destruct (dispatch_failure prog command args repo w0 Hfail)
        as [[e ->]|(w1 & -> & Hfs1 & Ht1 & Hev1)].
      * eexists. split; [exact Hnew|]. split; [reflexivity|].
        apply Hsame; [reflexivity|reflexivity|apply file_events_emit_stderr].
      * exists w1. split; [exact Hnew|]. split; [reflexivity|]. by apply Hsame.
  - intros Args Hlen.
    destruct (printUsage_run w) as (w1 & Hrun & Hfs & _ & Hev).
    exists w1. split; [|done].
    destruct Args as [|prog [|command args]]; [| |cbn in Hlen; lia].
    all: unfold run, main; by rewrite bind_run, Hrun.
Qed.

Lemma C3_witness :
  validation_failure ["task-tracker"; "list"; "todo"; "done"]%string
  ∧ ∃ res w0 w1,
      newJsonTaskRepository "tasks.json" (world_with three_tasks_json) = (Ret res, w0)
      ∧ run ["task-tracker"; "list"; "todo"; "done"]%string (world_with three_tasks_json)
        = (1%Z, w1)
      ∧ fs w1 = fs (world_with three_tasks_json)
      ∧ ticks w1 = 0
      ∧ file_events (log w1) = [EvReadFile "tasks.json"].
Proof.
  assert (validation_failure ["task-tracker"; "list"; "todo"; "done"]%string) as Hfail
    by (by apply wrong_operand_count).
  split; [exact Hfail|].
  destruct (proj1 (C3_validation_failure_exits_1 (world_with three_tasks_json)) _ Hfail)
    as (res & w0 & w1 & Hnew & Hrun & _ & Hticks & Hev & Hfs).
  exists res, w0, w1. split; [exact Hnew|]. split; [exact Hrun|].
  split; [apply Hfs; by eexists|]. split; [exact Hticks|exact Hev].
Defined.

(** C3, as stated, fails: [list bogus] is refused with exit code 1, but
    only after the repository was built.  With no task file, the run has
    read [tasks.json] and created it. *)
Lemma C3_counterexample :
  validation_failure ["task-tracker"; "list"; "bogus"]%string
  ∧ files (fs fresh_world) !! "tasks.json"%string = None
  ∧ ∃ w1,
      run ["task-tracker"; "list"; "bogus"]%string fresh_world = (1%Z, w1)
      ∧ log w1 = [EvReadFile "tasks.json"; EvWriteFile "tasks.json" "[]";
                  EvStderr ("Error: invalid status" ++ nl)%string]
      ∧ files (fs w1) !! "tasks.json"%string = Some "[]"%string
      ∧ file_events (log w1) ≠ file_events (log fresh_world).
Proof.
  split; [by apply invalid_status|]. split; [reflexivity|].
  eexists. split.
  { erewrite run_constructed; last first.
    { apply (new_repo_created _ _ "[]"); [reflexivity..|apply not_elem_of_empty]. }
    reflexivity. }
  split; [reflexivity|]. split; [reflexivity|]. discriminate.
Qed.

(** C9. On a store with no task file, every write accepted and the codec
    faithful on the two lists that are saved: [add "buy milk"] exits with 0
    and prints [task added successfully (ID: 1)], and the file then holds
    the marshalled list of one task, with id 1 and status todo;
    [mark-done 1] then exits with 0 and prints nothing; [list done] then
    exits with 0 and prints exactly the line [1 buy milk done]. *)
Theorem C9_end_to_end `{json : JsonCodec} (prog : string) (w : World) (d0 : string) :
  let todo := mkTask 1 "buy milk" "todo" (clock w (ticks w)) (clock w (S (ticks w))) in
  let finished :=
    mkTask 1 "buy milk" "done" (clock w (ticks w)) (clock w (S (S (ticks w)))) in
  files (fs w) !! "tasks.json"%string = None →
  "tasks.json"%string ∉ no_write (fs w) →
  "tasks.json"%string ∉ no_read (fs w) →
  Marshal (Slice []) = inr d0 →
  faithful (Slice [todo]) →
  faithful (Slice [finished]) →
  ∃ w1 w2 w3 d1,
    run [prog; "add"; "buy milk"]%string (next_process w) = (0%Z, w1)
    ∧ stdout_of (log w1) = ("task added successfully (ID: 1)" ++ nl)%string
    ∧ files (fs w1) !! "tasks.json"%string = Some d1
    ∧ Marshal (Slice [todo]) = inr d1
    ∧ run [prog; "mark-done"; "1"]%string (next_process w1) = (0%Z, w2)
    ∧ stdout_of (log w2) = EmptyString
    ∧ run [prog; "list"; "done"]%string (next_process w2) = (0%Z, w3)
    ∧ stdout_of (log w3) = ("1 buy milk done" ++ nl)%string.
Proof.
  intros todo finished Hnone Hw Hr Hm0 (d1 & Hm1 & Hu1) (d2 & Hm2 & Hu2).
  set (f := "tasks.json"%string) in *.
  (* the first run *)
  set (wA := written f d0 (emit (EvReadFile f) (next_process w))).
  set (w1 := emit (EvStdout ("task added successfully (ID: 1)" ++ nl)%string)
                  (written f d1 (tick (tick wA)))).
  assert (run [prog; "add"; "buy milk"]%string (next_process w) = (0%Z, w1)) as Hrun1.
  { erewrite run_constructed; last first.
    { apply (new_repo_created f _ d0); assumption. }
    fold wA.
    change (dispatch "add" ["buy milk"%string] (mkRepo f Nil) wA)
      with (add ["buy milk"%string] (mkRepo f Nil) wA).
    unfold add. cbv beta iota. rewrite bind_run.
    rewrite (Add_accepted _ _ _ d1); [reflexivity|exact Hm1|exact Hw]. }
  (* the second run *)
  set (wB := emit (EvReadFile f) (next_process w1)).
  set (w2 := written f d2 (mkWorld (fs wB) (clock wB) (ticks wB + 1) (log wB))).
  assert (run [prog; "mark-done"; "1"]%string (next_process w1) = (0%Z, w2)) as Hrun2.
  { erewrite run_constructed; last first.
    { apply (new_repo_loaded f _ (Slice [todo]) d1);
        [apply lookup_insert_eq|exact Hr|apply Hu1]. }
    fold wB.
    change (dispatch "mark-done" ["1"%string] (mkRepo f (Slice [todo])) wB)
      with (MarkDone 1 (mkRepo f (Slice [todo])) wB).
    unfold MarkDone.
    rewrite (touch_save_accepted _ _ _ _ _ d2); [reflexivity|exact Hm2|exact Hw]. }
  (* the third run *)
  set (wC := emit (EvReadFile f) (next_process w2)).
  assert (run [prog; "list"; "done"]%string (next_process w2)
          = (0%Z, emit (EvStdout ("1 buy milk done" ++ nl)%string) wC)) as Hrun3.
  { erewrite run_constructed; last first.
    { apply (new_repo_loaded f _ (Slice [finished]) d2);
        [apply lookup_insert_eq|exact Hr|apply Hu2]. }
    reflexivity. }
  exists w1, w2, (emit (EvStdout ("1 buy milk done" ++ nl)%string) wC), d1.
  split; [exact Hrun1|]. split; [reflexivity|]. split; [apply lookup_insert_eq|].
  split; [exact Hm1|]. split; [exact Hrun2|]. split; [reflexivity|].
  split; [exact Hrun3|reflexivity].
Qed.

Lemma C9_witness :
  files (fs fresh_world) !! "tasks.json"%string = None
  ∧ ("tasks.json"%string ∉ no_write (fs fresh_world))
  ∧ ("tasks.json"%string ∉ no_read (fs fresh_world))
  ∧ Marshal (Slice []) = inr "[]"%string
  ∧ faithful (Slice [mkTask 1 "buy milk" "todo" (seconds_clock 0) (seconds_clock 1)])
  ∧ faithful (Slice [mkTask 1 "buy milk" "done" (seconds_clock 0) (seconds_clock 2)])
  ∧ ∃ w1 w2 w3 d1,
      run ["task-tracker"; "add"; "buy milk"]%string (next_process fresh_world) = (0%Z, w1)
      ∧ stdout_of (log w1) = ("task added successfully (ID: 1)" ++ nl)%string
      ∧ files (fs w1) !! "tasks.json"%string = Some d1
      ∧ Marshal (Slice [mkTask 1 "buy milk" "todo" (seconds_clock 0) (seconds_clock 1)])
        = inr d1
      ∧ run ["task-tracker"; "mark-done"; "1"]%string (next_process w1) = (0%Z, w2)
      ∧ stdout_of (log w2) = EmptyString
      ∧ run ["task-tracker"; "list"; "done"]%string (next_process w2) = (0%Z, w3)
      ∧ stdout_of (log w3) = ("1 buy milk done" ++ nl)%string.
Proof.
  assert (faithful (Slice [mkTask 1 "buy milk" "todo" (seconds_clock 0) (seconds_clock 1)]))
    as Htodo.
  { eexists. split; [vm_compute; reflexivity|]. intros dst. vm_compute. reflexivity. }
  assert (faithful (Slice [mkTask 1 "buy milk" "done" (seconds_clock 0) (seconds_clock 2)]))
    as Hdone.
  { eexists. split; [vm_compute; reflexivity|]. intros dst. vm_compute. reflexivity. }
  split; [reflexivity|]. split; [apply not_elem_of_empty|].
  split; [apply not_elem_of_empty|]. split; [reflexivity|].
  split; [exact Htodo|]. split; [exact Hdone|].
  exact (C9_end_to_end "task-tracker" fresh_world "[]" eq_refl
           (not_elem_of_empty _) (not_elem_of_empty _) eq_refl Htodo Hdone).
Defined.

(** ** Further properties of the code *)

(** *** [Delete] on any list *)

Section DeleteLoop.
Context {json : JsonCodec}.

(** The loop panics when the last cell has the id and a removal has
    happened, or will happen, before the loop gets there: the slice is then
    shorter than the array the loop ranges over. *)
Lemma delete_loop_panics id (n : nat) (y : Task) : ∀ todo i (cells : list Task) ts w,
  ID y = id →
  i + todo = n → 0 < todo →
  length cells = n → cells !! (n - 1) = Some y →
  len ts ≤ n →
  (len ts < n ∨ ∃ j t, i ≤ j < n - 1 ∧ cells !! j = Some t ∧ ID t = id) →
  range_from (delete_body id) i todo (cells, ts) w
  = (Panic "slice bounds out of range", w).
Proof.
  intros todo. induction todo as [|todo IH]; intros i cells ts w Hy Hn Hpos Hlen Hlast Hts Hor;
    [lia|].
  destruct (lookup_lt_is_Some_2 cells i) as [t Ht]; [lia|].
  cbn [range_from]. rewrite bind_run. unfold delete_body at 1. rewrite Ht.
  destruct (Z.eqb_spec (ID t) id) as [E|E].
  - destruct (decide (S i ≤ len ts)) as [Hle|Hgt]; [|reflexivity].
    unfold mret, IO_ret.
    assert (length (take i (elems ts) ++ drop (S i) (elems ts)) = len ts - 1) as Hk.
    { unfold len in *. rewrite length_app, length_take, length_drop. lia. }
    destruct todo as [|todo].
    { exfalso. destruct Hor as [Hlt|(j & t' & Hj & _)]; lia. }
    apply IH; try done; try lia.
    + rewrite length_app, Hk, length_drop. lia.
    + rewrite lookup_app_r by lia. rewrite Hk, lookup_drop, <- Hlast. f_equal. lia.
    + unfold len. cbn [elems]. lia.
    + left. unfold len. cbn [elems]. lia.
  - unfold mret, IO_ret.
    destruct todo as [|todo].
    { exfalso. apply E. replace i with (n - 1) in Ht by lia. congruence. }
    apply IH; try done; try lia.
    destruct Hor as [Hlt|(j & t' & Hj & Hjt & Hid)]; [by left|right].
    exists j, t'. split; [|done].
    destruct (decide (j = i)) as [->|]; [congruence|lia].
Qed.

(** The loop when the last task of the list does not have the id.  [out]
    is what the loop has passed, [p] the position in the list of the task
    that now sits in cell [i]; behind the slice the array holds copies of
    the last task. *)
Lemma delete_loop_skips id (l : list Task) (y : Task) : ∀ todo i out p w,
  last l = Some y → ID y ≠ id →
  i + todo = length l → length out = i → i ≤ p ≤ length l →
  ∃ cells',
    range_from (delete_body id) i todo
      ((out ++ drop p l) ++ replicate (p - i) y, Slice (out ++ drop p l)) w
    = (Ret (cells', Slice (out ++ skipdel id (drop p l))), w).
Proof.
  intros todo. induction todo as [|todo IH]; intros i out p w Hy Hne Hn Hout Hp.
  { rewrite drop_ge by lia. eexists. reflexivity. }
  destruct (decide (p = length l)) as [->|Hlt].
  { (* the slice is exhausted: only copies of the last task are left *)
    rewrite drop_all. cbn [skipdel]. eexists. apply delete_loop_nomatch.
    intros j t Hj Hjt. rewrite app_nil_r in Hjt.
    rewrite lookup_app_r in Hjt by lia.
    apply lookup_replicate in Hjt as [-> _]. done. }
  destruct (lookup_lt_is_Some_2 l p) as [t Ht]; [lia|].
  rewrite (drop_S _ _ _ Ht).
  cbn [range_from]. rewrite bind_run. unfold delete_body at 1.
  rewrite <- app_assoc, <- app_comm_cons, (list_lookup_middle out _ t i) by done.
  cbn [skipdel].
  destruct (Z.eqb_spec (ID t) id) as [E|E].
  - destruct (lookup_lt_is_Some_2 l (S p)) as [u Hu].
    { destruct (decide (S p = length l)) as [Hend|]; [|lia].
      exfalso. apply Hne. rewrite last_lookup in Hy.
      replace (Nat.pred (length l)) with p in Hy by lia. congruence. }
    rewrite (drop_S _ _ _ Hu).
    destruct (decide _) as [_|Hgt]; last first.
    { exfalso. apply Hgt. unfold len. cbn [elems]. rewrite length_app. cbn. lia. }
    unfold mret, IO_ret. cbn [elems].
    rewrite take_app_length' by done.
    replace (drop (S i) (out ++ t :: u :: drop (S (S p)) l)) with (u :: drop (S (S p)) l);
      last first.
    { change (t :: u :: drop (S (S p)) l) with ([t] ++ u :: drop (S (S p)) l).
      rewrite app_assoc, drop_app_length'; [done|]. rewrite length_app. cbn. lia. }
    destruct (IH (S i) (out ++ [u]) (S (S p)) w Hy Hne) as [cells' Hloop];
      [lia|rewrite length_app; cbn; lia|apply lookup_lt_Some in Hu; lia|].
    exists cells'.
    etrans; [|etrans; [exact Hloop|by rewrite <- app_assoc]].
    f_equal.
    (* the cells behind the slice *)
    assert (length l = S (S p) + length (drop (S (S p)) l)) as Hlen.
    { rewrite length_drop. apply lookup_lt_Some in Hu. lia. }
    assert ((u :: drop (S (S p)) l) !! length (drop (S (S p)) l) = Some y) as Hlast.
    { rewrite <- (drop_S _ _ _ Hu), lookup_drop.
      rewrite last_lookup in Hy. rewrite <- Hy. f_equal. lia. }
    set (D := drop (S (S p)) l) in *.
    assert (drop (length (out ++ u :: D)) (out ++ t :: (u :: D) ++ replicate (p - i) y)
            = replicate (S (p - i)) y) as Hdrop.
    { replace (out ++ t :: (u :: D) ++ replicate (p - i) y)
        with ((out ++ [t]) ++ (u :: D) ++ replicate (p - i) y)
        by (by rewrite <- app_assoc).
      rewrite drop_app_ge by (rewrite !length_app; cbn; lia).
      replace (length (out ++ u :: D) - length (out ++ [t])) with (length D)
        by (rewrite !length_app; cbn; lia).
      rewrite drop_app_le by (cbn; lia).
      rewrite (drop_S _ _ _ Hlast), drop_ge by (cbn; lia). reflexivity. }
    rewrite Hdrop. replace (S (S p) - S i) with (S (p - i)) by lia.
    by rewrite <- !app_assoc.
  - unfold mret, IO_ret.
    destruct (IH (S i) (out ++ [t]) (S p) w Hy Hne) as [cells' Hloop];
      [lia|rewrite length_app; cbn; lia|lia|].
    exists cells'.
    etrans; [|etrans; [exact Hloop|by rewrite <- app_assoc]].
    replace (S p - S i) with (p - i) by lia. by rewrite <- !app_assoc.
Qed.

Lemma skipdel_nomatch_app id (pre rest : list Task) :
  Forall (λ t, ID t ≠ id) pre → skipdel id (pre ++ rest) = pre ++ skipdel id rest.
Proof.
  induction 1 as [|t pre Ht Hpre IH]; [done|]. cbn.
  destruct (Z.eqb_spec (ID t) id); [done|]. by rewrite IH.
Qed.

Lemma existsb_id_false id (l : list Task) :
  existsb (λ t, (ID t =? id)%Z) l = false → Forall (λ t, ID t ≠ id) l.
Proof.
  induction l as [|t l IH]; cbn; [done|].
  intros [H1 H2]%orb_false_elim. constructor; [by apply Z.eqb_neq|by apply IH].
Qed.

Lemma existsb_id_true id (l : list Task) :
  existsb (λ t, (ID t =? id)%Z) l = true → ∃ j t, l !! j = Some t ∧ ID t = id.
Proof.
  induction l as [|t l IH]; cbn; [done|].
  destruct (Z.eqb_spec (ID t) id) as [E|E].
  - intros _. by exists 0, t.
  - cbn. intros (j & t' & Hj & Ht')%IH. by exists (S j), t'.
Qed.

(** [Delete] after its loop has returned. *)
Lemma Delete_after_loop id r w cells' ts' :
  range_from (delete_body id) 0 (len (tasks r)) (elems (tasks r), tasks r) w
  = (Ret (cells', ts'), w) →
  Delete id r w = (err ← save (mkRepo (filename r) ts'); mret (mkRepo (filename r) ts', err)) w.
Proof. intros Hloop. unfold Delete. rewrite bind_run, Hloop. reflexivity. Qed.

End DeleteLoop.

Lemma Delete_run_any `{json : JsonCodec}
    (r : JsonTaskRepository) (id : Z) (w : World) :
  Delete id r w =
    if last_and_earlier id (elems (tasks r))
    then (Panic "slice bounds out of range", w)
    else (err ← save (mkRepo (filename r) (deleted id (tasks r)));
          mret (mkRepo (filename r) (deleted id (tasks r)), err)) w.
Proof.
  destruct r as [f [|l]]; [reflexivity|]. cbn [tasks elems filename deleted].
  unfold last_and_earlier.
  destruct (reverse l) as [|y before] eqn:Hrev.
  { apply (f_equal reverse) in Hrev. rewrite reverse_involutive in Hrev. by subst l. }
  apply (f_equal reverse) in Hrev. rewrite reverse_involutive, reverse_cons in Hrev.
  subst l. set (l0 := reverse before).
  assert (last (l0 ++ [y]) = Some y) as Hlast by apply last_snoc.
  destruct (Z.eqb_spec (ID y) id) as [Ey|Ey]; cbn [andb].
  - destruct (existsb _ before) eqn:Hex.
    + (* the last task and an earlier one have the id *)
      apply existsb_id_true in Hex as (j & t & Hj & Ht).
      assert (t ∈ l0) as Hin.
      { apply elem_of_reverse_2, list_elem_of_lookup. eauto. }
      apply list_elem_of_lookup in Hin as [j' Hj'].
      unfold Delete. rewrite bind_run. unfold len. cbn [tasks elems].
      rewrite (delete_loop_panics id (length (l0 ++ [y])) y); try done.
      * rewrite length_app. cbn. lia.
      * rewrite length_app. cbn.
        replace (length l0 + 1 - 1) with (length l0) by lia.
        by rewrite list_lookup_middle.
      * right. exists j', t. rewrite length_app. cbn.
        pose proof (lookup_lt_Some _ _ _ Hj'). split; [lia|].
        split; [by rewrite lookup_app_l|done].
    + (* only the last task has the id *)
      apply existsb_id_false in Hex.
      assert (Forall (λ t, ID t ≠ id) l0) as Hl0.
      { apply Forall_forall. intros t Ht. unfold l0 in Ht.
        apply elem_of_reverse in Ht. rewrite reverse_involutive in Ht.
        exact (proj1 (Forall_forall (λ t, ID t ≠ id) before) Hex t Ht). }
      pose proof (Delete_found id (mkRepo f (Slice (l0 ++ [y]))) l0 [] y w eq_refl Ey Hl0
                    (Forall_nil_2 _)) as Hfound.
      rewrite Hfound.
      rewrite skipdel_nomatch_app by done. cbn [skipdel].
      rewrite (proj2 (Z.eqb_eq _ _) Ey).
      cbn [filename]. rewrite bind_run, save_run. reflexivity.
  - (* the last task does not have the id *)
    destruct (delete_loop_skips id (l0 ++ [y]) y (length (l0 ++ [y])) 0 [] 0 w Hlast Ey)
      as [cells' Hloop]; [done|done|lia|].
    cbn [app replicate Nat.sub] in Hloop. rewrite drop_0, app_nil_r in Hloop.
    exact (Delete_after_loop id (mkRepo f (Slice (l0 ++ [y]))) w cells'
             (Slice (skipdel id (l0 ++ [y]))) Hloop).
Qed.

(** X1. What [Delete] does on any list.  When the last task has the id and
    an earlier task has it too, [Delete] panics (slice bounds out of range)
    before anything is saved.  In every other case it returns after saving
    the list that [skipdel] describes: each task with the id that the loop
    looks at is removed, and the task right after a removed one is kept
    without being looked at, so of two neighbours with the id only the
    first is removed. *)
Theorem X1_Delete_on_any_list `{json : JsonCodec}
    (r : JsonTaskRepository) (id : Z) (w : World) :
  Delete id r w =
    if last_and_earlier id (elems (tasks r))
    then (Panic "slice bounds out of range", w)
    else (err ← save (mkRepo (filename r) (deleted id (tasks r)));
          mret (mkRepo (filename r) (deleted id (tasks r)), err)) w.
Proof. apply Delete_run_any. Qed.

(** Two neighbours with id 3 followed by another task: only the first is
    removed.  Two tasks with id 3 at the end: the panic. *)
Example skipdel_neighbours :
  ID <$> skipdel 3 (with_duplicate ++ [sample 4 "water plants" "todo"]) = [1; 3; 4]%Z
  ∧ last_and_earlier 3 (with_duplicate ++ [sample 4 "water plants" "todo"]) = false
  ∧ last_and_earlier 3 with_duplicate = true.
Proof. repeat split. Qed.

(** *** The dispatcher functions, run *)

Lemma for_each_print_run (l : list Task) : ∀ w,
  for_each print_task l w =
    (Ret tt, mkWorld (fs w) (clock w) (ticks w)
                     (log w ++ ((λ t, EvStdout (task_line t)) <$> l))).
Proof.
  induction l as [|t l IH]; intros w.
  - cbn. by rewrite app_nil_r, world_eta.
  - cbn [for_each]. rewrite bind_run.
    change (print_task t w) with (Ret tt, emit (EvStdout (task_line t)) w).
    cbv beta iota. rewrite IH. cbn [emit fs clock ticks log fmap list_fmap].
    by rewrite <- app_assoc.
Qed.

Lemma List_elems status r :
  List status r =
    (fst (List status r), None)
  ∧ elems (fst (List status r))
    = if String.eqb status EmptyString then elems (tasks r)
      else filter (λ t, Status t = status) (elems (tasks r)).
Proof.
  unfold List. destruct (String.eqb status EmptyString); cbn [negb fst]; [done|].
  by rewrite filter_loop.
Qed.

(** [list] after a successful construction: it prints, and returns no
    error. *)
Lemma list_run `{json : JsonCodec} (status : string) (args : list string)
    (repo : JsonTaskRepository) (w0 : World) :
  args = [] ∧ status = EmptyString ∨ args = [status] ∧ Contains statuses status = true →
  list_ args repo w0 =
    (Ret (repo, None),
     mkWorld (fs w0) (clock w0) (ticks w0)
       (log w0 ++ ((λ t, EvStdout (task_line t)) <$> elems (fst (List status repo))))).
Proof.
  intros [[-> ->]|[-> Hst]]; unfold list_; rewrite ?Hst; cbn [negb].
  - destruct (List_elems EmptyString repo) as [-> _].
    rewrite bind_run, for_each_print_run. reflexivity.
  - destruct (List_elems status repo) as [-> _].
    rewrite bind_run, for_each_print_run. reflexivity.
Qed.

Lemma dispatch_list `{json : JsonCodec} args repo w0 :
  dispatch "list" args repo w0 = list_ args repo w0.
Proof. reflexivity. Qed.

(** X2. With a task file that loads, [list] exits with 0 after printing one
    line [<id> <description> <status>] per task, in the order of the list,
    and [list <status>], for each of the three statuses, the lines of the
    tasks with that status.  The run reads the file once and changes
    neither a file nor the clock. *)
Theorem X2_list_prints_and_changes_nothing `{json : JsonCodec}
    (prog : string) (w : World) (data : string) (s : slice Task) :
  files (fs w) !! "tasks.json"%string = Some data →
  "tasks.json"%string ∉ no_read (fs w) →
  Unmarshal data Nil = (s, None) →
  run [prog; "list"%string] w = (0%Z, listed (elems s) w)
  ∧ ∀ status, status ∈ statuses →
      run [prog; "list"%string; status] w
      = (0%Z, listed (filter (λ t, Status t = status) (elems s)) w).
Proof.
  intros Hfile Hread Hload.
  pose proof (new_repo_loaded "tasks.json" w s data Hfile Hread Hload) as Hnew.
  split.
  - rewrite (run_constructed _ _ _ _ _ _ Hnew), dispatch_list.
    rewrite (list_run EmptyString) by (by left).
    destruct (List_elems EmptyString (mkRepo "tasks.json" s)) as [_ ->].
    cbn. unfold listed. by rewrite <- app_assoc.
  - intros status Hst.
    assert (Contains statuses status = true ∧ String.eqb status EmptyString = false)
      as [Hc He].
    { unfold statuses in Hst.
      repeat (apply elem_of_cons in Hst as [->|Hst]; [done|]).
      by apply elem_of_nil in Hst. }
    rewrite (run_constructed _ _ _ _ _ _ Hnew), dispatch_list.
    rewrite (list_run status) by (by right).
    destruct (List_elems status (mkRepo "tasks.json" s)) as [_ ->].
    rewrite He. cbn. unfold listed. by rewrite <- app_assoc.
Qed.

Lemma X2_witness :
  files (fs (world_with three_tasks_json)) !! "tasks.json"%string = Some three_tasks_json
  ∧ ("tasks.json"%string ∉ no_read (fs (world_with three_tasks_json)))
  ∧ Unmarshal three_tasks_json Nil = (Slice three_tasks, None)
  ∧ run ["task-tracker"; "list"]%string (world_with three_tasks_json)
    = (0%Z, listed three_tasks (world_with three_tasks_json))
  ∧ run ["task-tracker"; "list"; "done"]%string (world_with three_tasks_json)
    = (0%Z, listed [sample 3 "pay rent" "done"] (world_with three_tasks_json))
  ∧ stdout_of (log (listed three_tasks (world_with three_tasks_json)))
    = ("1 buy milk todo" ++ nl ++ "2 call home in-progress" ++ nl
       ++ "3 pay rent done" ++ nl)%string.
Proof.
  assert (Unmarshal three_tasks_json Nil = (Slice three_tasks, None)) as Hload
    by (vm_compute; reflexivity).
  destruct (X2_list_prints_and_changes_nothing "task-tracker"
              (world_with three_tasks_json) three_tasks_json (Slice three_tasks)
              (lookup_singleton_eq _ _) (not_elem_of_empty _) Hload) as [Hall Hst].
  split; [apply lookup_singleton_eq|]. split; [apply not_elem_of_empty|].
  split; [exact Hload|]. split; [exact Hall|]. split; [|reflexivity].
  apply (Hst "done"%string). do 2 apply list_elem_of_further. apply list_elem_of_here.
Defined.

(** The [switch] returns, or exits with 1, or panics inside [delete] called
    with one operand. *)
Lemma dispatch_outcome `{json : JsonCodec} command args repo w0 :
  match dispatch command args repo w0 with
  | (Ret _, _) => True
  | (Exit c, _) => c = 1%Z
  | (Panic _, _) => command = "delete"%string ∧ ∃ text, args = [text]
  end.
Proof.
  unfold dispatch.
  destruct (String.eqb_spec command "add") as [->|_].
  { unfold add. destruct args as [|a [|b args]]; try exact I.
    rewrite bind_run, Add_run. cbv beta iota.
    by destruct (save_error _ _). }
  destruct (String.eqb_spec command "update") as [->|_].
  { unfold update. destruct args as [|a [|b [|c args]]]; try exact I.
    destruct (Atoi a) as [id|]; [|exact I].
    unfold Update. by rewrite touch_save_run. }
  destruct (String.eqb_spec command "delete") as [->|_].
  { unfold delete. destruct args as [|a [|b args]]; try exact I.
    destruct (Atoi a) as [id|]; [|exact I].
    rewrite Delete_run_any. destruct (last_and_earlier _ _).
    - split; [reflexivity|by exists a].
    - by rewrite bind_run, save_run. }
  destruct (String.eqb_spec command "mark-in-progress") as [->|_].
  { unfold markInProgress. destruct args as [|a [|b args]]; try exact I.
    destruct (Atoi a) as [id|]; [|exact I].
    unfold MarkInProgress. by rewrite touch_save_run. }
  destruct (String.eqb_spec command "mark-done") as [->|_].
  { unfold markDone. destruct args as [|a [|b args]]; try exact I.
    destruct (Atoi a) as [id|]; [|exact I].
    unfold MarkDone. by rewrite touch_save_run. }
  destruct (String.eqb_spec command "list") as [->|_].
  { destruct args as [|a [|b args]]; [| |exact I].
    - by rewrite (list_run EmptyString) by (by left).
    - destruct (Contains statuses a) eqn:Hc.
      + by rewrite (list_run a) by (by right).
      + unfold list_. rewrite Hc. exact I. }
  destruct (printUsage_run w0) as (w1 & Hrun & _).
  by rewrite bind_run, Hrun.
Qed.

(** X3. A run of the program exits with 0 or with 1, except that a run of
    [delete] with one operand can end in a panic, which exits with 2. *)
Theorem X3_exit_codes `{json : JsonCodec} (Args : list string) (w : World) :
  fst (run Args w) = 0%Z
  ∨ fst (run Args w) = 1%Z
  ∨ (fst (run Args w) = 2%Z ∧ ∃ prog text, Args = [prog; "delete"%string; text]).
Proof.
  destruct Args as [|prog [|command args]].
  1, 2: right; left; destruct (printUsage_run w) as (w1 & Hrun & _);
        unfold run, main; by rewrite bind_run, Hrun.
  destruct (new_repo_ret "tasks.json" w) as (res & w0 & Hnew & _).
  destruct res as [err|repo].
  { right. left. unfold run, main. by rewrite bind_run, Hnew. }
  rewrite (run_constructed _ _ _ _ _ _ Hnew).
  pose proof (dispatch_outcome command args repo w0) as Hout.
  destruct (dispatch command args repo w0) as [[[repo' [e|]]|c|msg] w1]; cbn [fst].
  - by right; left.
  - by left.
  - by right; left.
  - right. right. destruct Hout as [-> [text ->]]. split; [done|]. by exists prog, text.
Qed.

(** X4. A run of [delete <id>] on a task file that loads.  When the last
    task of the list has the id and an earlier task has it too, the run
    ends in the panic of [Delete]: it exits with 2, and the file is as it
    was, read once and never written.  Otherwise, the write accepted, the
    run exits with 0, prints nothing, and the file holds the marshalled
    list that [skipdel] leaves. *)
Theorem X4_delete_run `{json : JsonCodec}
    (prog text : string) (id : Z) (w : World) (data : string) (l : list Task) :
  files (fs w) !! "tasks.json"%string = Some data →
  "tasks.json"%string ∉ no_read (fs w) →
  Unmarshal data Nil = (Slice l, None) →
  Atoi text = Some id →
  (last_and_earlier id l = true →
     ∃ w', run [prog; "delete"%string; text] w = (2%Z, w')
           ∧ fs w' = fs w
           ∧ file_events (log w') = file_events (log w) ++ [EvReadFile "tasks.json"])
  ∧ (last_and_earlier id l = false →
       ∀ data', Marshal (Slice (skipdel id l)) = inr data' →
       "tasks.json"%string ∉ no_write (fs w) →
       ∃ w', run [prog; "delete"%string; text] w = (0%Z, w')
             ∧ files (fs w') !! "tasks.json"%string = Some data'
             ∧ log w' = log w ++ [EvReadFile "tasks.json"; EvWriteFile "tasks.json" data']).
Proof.
  intros Hfile Hread Hload Hid.
  pose proof (new_repo_loaded "tasks.json" w (Slice l) data Hfile Hread Hload) as Hnew.
  assert (dispatch "delete" [text] (mkRepo "tasks.json" (Slice l))
                   (emit (EvReadFile "tasks.json") w)
          = Delete id (mkRepo "tasks.json" (Slice l)) (emit (EvReadFile "tasks.json") w))
    as Hd.
  { change (dispatch "delete" [text] ?r ?w0) with (delete [text] r w0).
    unfold delete. by rewrite Hid. }
  split.
  - intros Hpanic.
    rewrite (run_constructed _ _ _ _ _ _ Hnew), Hd, Delete_run_any.
    cbn [tasks elems]. rewrite Hpanic.
    eexists. split; [reflexivity|]. split; [reflexivity|].
    cbn [log emit]. unfold file_events. by rewrite List.filter_app.
  - intros Hok data' Hm Hw.
    rewrite (run_constructed _ _ _ _ _ _ Hnew), Hd, Delete_run_any.
    cbn [tasks elems filename deleted]. rewrite Hok.
    rewrite bind_run, (save_accepted _ _ data') by done.
    eexists. split; [reflexivity|]. split.
    + cbn. apply lookup_insert_eq.
    + cbn. by rewrite <- app_assoc.
Qed.

Lemma X4_witness :
  files (fs (world_with with_duplicate_json)) !! "tasks.json"%string
  = Some with_duplicate_json
  ∧ ("tasks.json"%string ∉ no_read (fs (world_with with_duplicate_json)))
  ∧ Unmarshal with_duplicate_json Nil = (Slice with_duplicate, None)
  ∧ Atoi "3" = Some 3%Z
  ∧ last_and_earlier 3 with_duplicate = true
  ∧ (∃ w', run ["task-tracker"; "delete"; "3"]%string (world_with with_duplicate_json)
           = (2%Z, w')
           ∧ fs w' = fs (world_with with_duplicate_json)
           ∧ file_events (log w') = [EvReadFile "tasks.json"])
  ∧ Atoi "1" = Some 1%Z
  ∧ last_and_earlier 1 with_duplicate = false
  ∧ ∃ data' w',
      Marshal (Slice (skipdel 1 with_duplicate)) = inr data'
      ∧ ID <$> skipdel 1 with_duplicate = [3; 3]%Z
      ∧ run ["task-tracker"; "delete"; "1"]%string (world_with with_duplicate_json)
        = (0%Z, w')
      ∧ files (fs w') !! "tasks.json"%string = Some data'.
Proof.
  assert (Unmarshal with_duplicate_json Nil = (Slice with_duplicate, None)) as Hload
    by (vm_compute; reflexivity).
  split; [apply lookup_singleton_eq|]. split; [apply not_elem_of_empty|].
  split; [exact Hload|]. split; [reflexivity|]. split; [reflexivity|].
  split.
  { exact (proj1 (X4_delete_run "task-tracker" "3" 3 (world_with with_duplicate_json)
                    with_duplicate_json with_duplicate (lookup_singleton_eq _ _)
                    (not_elem_of_empty _) Hload eq_refl) eq_refl). }
  split; [reflexivity|]. split; [reflexivity|].
  assert (∃ data', Marshal (Slice (skipdel 1 with_duplicate)) = inr data') as [data' Hm]
    by (eexists; vm_compute; reflexivity).
  destruct (proj2 (X4_delete_run "task-tracker" "1" 1 (world_with with_duplicate_json)
                     with_duplicate_json with_duplicate (lookup_singleton_eq _ _)
                     (not_elem_of_empty _) Hload eq_refl) eq_refl data' Hm
              (not_elem_of_empty _)) as (w' & Hrun & Hf & _).
  exists data', w'. split; [exact Hm|]. split; [reflexivity|].
  split; [exact Hrun|exact Hf].
Defined.

(** *** What a successful method has saved *)

Lemma save_nil_persisted `{json : JsonCodec} r w :
  save_error r w = None → persisted r (save_world r w).
Proof.
  unfold save_error, save_world, persisted.
  destruct (Marshal (tasks r)) as [err|data]; [done|].
  destruct (decide _); [done|]. intros _.
  exists data. split; [done|]. cbn. apply lookup_insert_eq.
Qed.

(** X5. A mutating method that returns no error has written the list it
    leaves in memory: after [Add], [Update], [Delete], [MarkInProgress] or
    [MarkDone] returned nil, the file of the repository holds the
    marshalled list of the repository. *)
Theorem X5_success_means_persisted `{json : JsonCodec}
    (r : JsonTaskRepository) (id : Z) (description : string) (w : World) :
  (∀ r' task w',
     Add description r w = (Ret (r', (task, None)), w') → persisted r' w')
  ∧ (∀ op, op ∈ [Update id description; Delete id; MarkInProgress id; MarkDone id] →
       ∀ r' w', op r w = (Ret (r', None), w') → persisted r' w').
Proof.
  split.
  - intros r' task w'. rewrite Add_run. intros [= <- _ He <-].
    by apply save_nil_persisted.
  - assert (∀ assign r' w',
      (ts ← range_from (touch_body id assign) 0 (len (tasks r)) (tasks r);
       let r := mkRepo (filename r) ts in
       err ← save r;
       mret (r, err)) w = (Ret (r', None), w') → persisted r' w') as Htouch.
    { intros assign r' w'. rewrite touch_save_run. cbv zeta. intros [= <- He <-].
      by apply save_nil_persisted. }
    intros op Hop.
    apply elem_of_cons in Hop as [->|Hop]; [apply Htouch|].
    apply elem_of_cons in Hop as [->|Hop].
    { intros r' w'. rewrite Delete_run_any. destruct (last_and_earlier _ _); [done|].
      rewrite bind_run, save_run. intros [= <- He <-]. by apply save_nil_persisted. }
    apply elem_of_cons in Hop as [->|Hop]; [apply Htouch|].
    apply elem_of_cons in Hop as [->|Hop]; [apply Htouch|].
    by apply elem_of_nil in Hop.
Qed.

Lemma X5_witness :
  ∃ r' w',
    MarkDone 2 sample_repo fresh_world = (Ret (r', None), w')
    ∧ Status <$> elems (tasks r') = ["todo"; "done"; "done"]%string
    ∧ persisted r' w'.
Proof.
  assert (∃ data,
    Marshal (Slice (touched 2 (set_Status "done") (clock fresh_world) (ticks fresh_world)
                            three_tasks)) = inr data) as [data Hm]
    by (eexists; vm_compute; reflexivity).
  pose proof (touch_save_accepted 2 (set_Status "done") "tasks.json" three_tasks
                fresh_world data Hm (not_elem_of_empty _)) as Hrun.
  eexists _, _. split; [exact Hrun|]. split; [reflexivity|].
  apply (proj2 (X5_success_means_persisted sample_repo 2 "call home" fresh_world)
           (MarkDone 2)); [|exact Hrun].
  do 3 apply list_elem_of_further. apply list_elem_of_here.
Defined.

(** X6. What [save] has written is what the next construction loads: when
    [save] returned nil and the codec reads the marshalled list back as the
    list, building the repository in a later run on the same file returns
    the repository as it was saved. *)
Theorem X6_saved_is_loaded `{json : JsonCodec} (r : JsonTaskRepository) (w w' : World) :
  save r w = (Ret None, w') →
  (∀ data, Marshal (tasks r) = inr data → Unmarshal data Nil = (tasks r, None)) →
  filename r ∉ no_read (fs w) →
  newJsonTaskRepository (filename r) (next_process w')
  = (Ret (inr r), emit (EvReadFile (filename r)) (next_process w')).
Proof.
  rewrite save_run. intros [= He <-] Hcodec Hread.
  destruct (save_nil_persisted r w He) as (data & Hm & Hfile).
  assert (no_read (fs (save_world r w)) = no_read (fs w)) as Hnr.
  { unfold save_world. rewrite Hm. by destruct (decide _). }
  rewrite (new_repo_loaded (filename r) _ (tasks r) data); first by destruct r.
  - exact Hfile.
  - cbn. by rewrite Hnr.
  - by apply Hcodec.
Qed.

Lemma X6_witness :
  ∃ w',
    save sample_repo fresh_world = (Ret None, w')
    ∧ (∀ data, Marshal (tasks sample_repo) = inr data →
         Unmarshal data Nil = (tasks sample_repo, None))
    ∧ (filename sample_repo ∉ no_read (fs fresh_world))
    ∧ newJsonTaskRepository "tasks.json" (next_process w')
      = (Ret (inr sample_repo), emit (EvReadFile "tasks.json") (next_process w')).
Proof.
  assert (Marshal (tasks sample_repo) = inr three_tasks_json) as Hm
    by (vm_compute; reflexivity).
  pose proof (save_accepted sample_repo fresh_world three_tasks_json Hm
                (not_elem_of_empty _)) as Hsave.
  assert (∀ data, Marshal (tasks sample_repo) = inr data →
            Unmarshal data Nil = (tasks sample_repo, None)) as Hcodec.
  { intros data Hd. rewrite Hm in Hd. injection Hd as <-. vm_compute. reflexivity. }
  eexists. split; [exact Hsave|]. split; [exact Hcodec|].
  split; [apply not_elem_of_empty|].
  exact (X6_saved_is_loaded sample_repo fresh_world _ Hsave Hcodec (not_elem_of_empty _)).
Defined.

Lemma printUsage_exact w :
  printUsage w =
    (Ret tt, mkWorld (fs w) (clock w) (ticks w)
               (log w ++ ((λ line, EvStdout (line ++ nl)%string) <$> usage_lines))).
Proof.
  transitivity (Ret tt, foldl (λ w line, emit (EvStdout (line ++ nl)%string) w) w usage_lines);
    [reflexivity|].
  cbv [foldl usage_lines emit fs clock ticks log fmap list_fmap].
  by rewrite <- !app_assoc.
Qed.

(** X7. How the validation failures are reported once the repository is
    built.  An unrecognized command prints the usage text on standard
    output and nothing on standard error.  A recognized command that is
    refused prints one line on standard error and nothing on standard
    output: for [add] with a number of operands other than one, the line
    [Error: help: task-tracker add "task description"]; for an id that does
    not parse, [Error: invalid id]; for a status operand of [list] that is
    not a status, [Error: invalid status]; and for any recognized command
    with a wrong number of operands, the help line of that command.  Every
    such run exits with 1. *)
Theorem X7_validation_messages `{json : JsonCodec}
    (prog : string) (w : World) (repo : JsonTaskRepository) (w0 : World) :
  newJsonTaskRepository "tasks.json" w = (Ret (inr repo), w0) →
  (∀ command args, Contains commands command = false →
     run (prog :: command :: args) w
     = (1%Z, mkWorld (fs w0) (clock w0) (ticks w0)
               (log w0 ++ ((λ line, EvStdout (line ++ nl)%string) <$> usage_lines))))
  ∧ (∀ args, length args ≠ 1 →
       run (prog :: "add"%string :: args) w
       = (1%Z, emit (EvStderr ("Error: help: task-tracker add " ++ dq
                               ++ "task description" ++ dq ++ nl)%string) w0))
  ∧ (∀ command a0,
       command ∈ ["delete"; "mark-in-progress"; "mark-done"]%string →
       Atoi a0 = None →
       run [prog; command; a0] w
       = (1%Z, emit (EvStderr ("Error: invalid id" ++ nl)%string) w0))
  ∧ (∀ a0 a1, Atoi a0 = None →
       run [prog; "update"%string; a0; a1] w
       = (1%Z, emit (EvStderr ("Error: invalid id" ++ nl)%string) w0))
  ∧ (∀ a0, Contains statuses a0 = false →
       run [prog; "list"%string; a0] w
       = (1%Z, emit (EvStderr ("Error: invalid status" ++ nl)%string) w0))
  ∧ (∀ command args,
       Contains commands command = true →
       arity_ok command (length args) = false →
       run (prog :: command :: args) w
       = (1%Z, emit (EvStderr ("Error: " ++ help_text command ++ nl)%string) w0)).
Proof.
  intros Hnew. split; [|split; [|split; [|split; [|split]]]].
  - intros command args Hc. rewrite (run_constructed _ _ _ _ _ _ Hnew).
    unfold Contains, commands in Hc. cbn [existsb] in Hc.
    repeat (apply orb_false_elim in Hc as [? Hc]).
    unfold dispatch. repeat match goal with H : String.eqb _ _ = false |- _ =>
                              rewrite H; clear H end.
    by rewrite bind_run, printUsage_exact.
  - intros args Hlen. rewrite (run_constructed _ _ _ _ _ _ Hnew).
    change (dispatch "add" args repo w0) with (add args repo w0).
    destruct args as [|a [|b args]]; [reflexivity|done|reflexivity].
  - intros command a0 Hcmd Hid. rewrite (run_constructed _ _ _ _ _ _ Hnew).
    repeat (apply elem_of_cons in Hcmd as [->|Hcmd];
            [unfold dispatch; cbn [String.eqb Ascii.eqb Bool.eqb];
             cbv beta iota; unfold delete, markInProgress, markDone;
             by rewrite Hid|]).
    by apply elem_of_nil in Hcmd.
  - intros a0 a1 Hid. rewrite (run_constructed _ _ _ _ _ _ Hnew).
    change (dispatch "update" [a0; a1] repo w0) with (update [a0; a1] repo w0).
    unfold update. by rewrite Hid.
  - intros a0 Hst. rewrite (run_constructed _ _ _ _ _ _ Hnew), dispatch_list.
    unfold list_. by rewrite Hst.
  - intros command args Hc Har. rewrite (run_constructed _ _ _ _ _ _ Hnew).
    unfold Contains, commands in Hc. cbn [existsb] in Hc.
    unfold dispatch, help_text, arity_ok in *.
    repeat match goal with
           | |- context [String.eqb command ?s] =>
               destruct (String.eqb_spec command s) as [->|?]
           end;
      try discriminate Hc;
      destruct args as [|a0 [|a1 [|a2 args]]]; try discriminate Har;
      reflexivity.
Qed.

Lemma X7_witness :
  newJsonTaskRepository "tasks.json" (world_with three_tasks_json)
  = (Ret (inr sample_repo), emit (EvReadFile "tasks.json") (world_with three_tasks_json))
  ∧ run ["task-tracker"; "add"]%string (world_with three_tasks_json)
    = (1%Z, emit (EvStderr ("Error: help: task-tracker add " ++ dq
                            ++ "task description" ++ dq ++ nl)%string)
              (emit (EvReadFile "tasks.json") (world_with three_tasks_json)))
  ∧ Atoi "two" = None
  ∧ run ["task-tracker"; "mark-done"; "two"]%string (world_with three_tasks_json)
    = (1%Z, emit (EvStderr ("Error: invalid id" ++ nl)%string)
              (emit (EvReadFile "tasks.json") (world_with three_tasks_json))).
Proof.
  assert (newJsonTaskRepository "tasks.json" (world_with three_tasks_json)
          = (Ret (inr sample_repo),
             emit (EvReadFile "tasks.json") (world_with three_tasks_json))) as Hnew.
  { apply (new_repo_loaded _ _ _ three_tasks_json);
      [apply lookup_singleton_eq|apply not_elem_of_empty|vm_compute; reflexivity]. }
  destruct (X7_validation_messages "task-tracker" _ _ _ Hnew) as (_ & Hadd & Hid & _).
  split; [exact Hnew|]. split; [apply (Hadd []); discriminate|].
  split; [reflexivity|].
  apply Hid; [|reflexivity].
  do 2 apply list_elem_of_further. apply list_elem_of_here.
Defined.

(** *** [Add] followed by [Delete] *)

Lemma existsb_reverse {A} (f : A → bool) (l : list A) :
  existsb f (reverse l) = existsb f l.
Proof.
  induction l as [|x l IH]; [done|].
  rewrite reverse_cons, existsb_app, IH. cbn. rewrite orb_false_r. apply orb_comm.
Qed.

(** X8. [Delete] of the id of the task that [Add] has just created.  When
    no task of the list had that id, the list is again as it was before the
    [Add].  When a task of the list had it already (the ids are counted,
    not remembered), the [Delete] panics. *)
Theorem X8_Add_then_Delete `{json : JsonCodec}
    (r : JsonTaskRepository) (description : string) (w : World) :
  ∃ r1 task err w1,
    Add description r w = (Ret (r1, (task, err)), w1)
    ∧ ID task = (Z.of_nat (len (tasks r)) + 1)%Z
    ∧ Delete (ID task) r1 w1 =
        if existsb (λ t, (ID t =? ID task)%Z) (elems (tasks r))
        then (Panic "slice bounds out of range", w1)
        else (e ← save (mkRepo (filename r) (Slice (elems (tasks r))));
              mret (mkRepo (filename r) (Slice (elems (tasks r))), e)) w1.
Proof.
  rewrite Add_run. eexists _, _, _, _. split; [reflexivity|]. split; [reflexivity|].
  rewrite Delete_run_any. unfold added. cbn [tasks elems filename append deleted].
  unfold last_and_earlier. rewrite reverse_snoc, Z.eqb_refl, existsb_reverse. cbn [andb].
  destruct (existsb _ (elems (tasks r))) eqn:Hex; [reflexivity|].
  apply existsb_id_false in Hex.
  rewrite skipdel_nomatch_app by done. cbn [skipdel]. rewrite Z.eqb_refl.
  by rewrite app_nil_r.
Qed.

(** After the collision of C1 (ids 1, 3, 3, the last one just added),
    deleting the new task's id panics; on the list 1, 2, 3 the [Add] and
    the [Delete] cancel out. *)
Example Add_then_Delete_examples :
  existsb (λ t, (ID t =? 3)%Z) [sample 1 "buy milk" "todo"; sample 3 "pay rent" "done"] = true
  ∧ existsb (λ t, (ID t =? 4)%Z) three_tasks = false.
Proof. split; reflexivity. Qed.

(** *** What [Update], [MarkInProgress] and [MarkDone] leave alone *)

Lemma touched_fmap {A} (f : Task → A) id assign clk (l : list Task) : ∀ k,
  (∀ t u, f (set_UpdatedAt u (assign t)) = f t) →
  f <$> touched id assign clk k l = f <$> l.
Proof.
  intros k Hf. revert k. induction l as [|t l IH]; intros k; [done|]. cbn.
  destruct (ID t =? id)%Z; cbn; by rewrite IH, ?Hf.
Qed.

(** X9. [Update], [MarkInProgress] and [MarkDone] never add, remove or
    reorder tasks and never change an id or a creation time; a task whose
    id is not the one given is left exactly as it was; [Update] changes no
    status and the two others change no description; and the clock is read
    once for every task that has the id. *)
Theorem X9_mutations_leave_the_rest `{json : JsonCodec}
    (r : JsonTaskRepository) (id : Z) (description : string) (w : World) :
  ∀ op field,
    (op, field) ∈ [(Update id description, Status);
                   (MarkInProgress id, Description);
                   (MarkDone id, Description)] →
    ∃ r' err w',
      op r w = (Ret (r', err), w')
      ∧ ticks w' = ticks w + matches id (elems (tasks r))
      ∧ ID <$> elems (tasks r') = ID <$> elems (tasks r)
      ∧ CreatedAt <$> elems (tasks r') = CreatedAt <$> elems (tasks r)
      ∧ field <$> elems (tasks r') = field <$> elems (tasks r)
      ∧ ∀ i t, elems (tasks r) !! i = Some t → ID t ≠ id → elems (tasks r') !! i = Some t.
Proof.
  assert (∀ assign (field : Task → string),
    (∀ t, ID (assign t) = ID t) → (∀ t, CreatedAt (assign t) = CreatedAt t) →
    (∀ t, field (assign t) = field t) → (∀ t u, field (set_UpdatedAt u t) = field t) →
    ∃ r' err w',
      (ts ← range_from (touch_body id assign) 0 (len (tasks r)) (tasks r);
       let r := mkRepo (filename r) ts in
       err ← save r;
       mret (r, err)) w = (Ret (r', err), w')
      ∧ ticks w' = ticks w + matches id (elems (tasks r))
      ∧ ID <$> elems (tasks r') = ID <$> elems (tasks r)
      ∧ CreatedAt <$> elems (tasks r') = CreatedAt <$> elems (tasks r)
      ∧ field <$> elems (tasks r') = field <$> elems (tasks r)
      ∧ ∀ i t, elems (tasks r) !! i = Some t → ID t ≠ id → elems (tasks r') !! i = Some t)
    as Hall.
  { intros assign field Hid Hcr Hf Hu. rewrite touch_save_run. cbv zeta.
    eexists _, _, _. split; [reflexivity|].
    split; [by rewrite (proj2 (save_world_clock _ _))|].
    destruct r as [f [|l]]; cbn [tasks elems] in *; [done|].
    split; [apply touched_fmap; intros; cbn; apply Hid|].
    split; [apply touched_fmap; intros; cbn; apply Hcr|].
    split; [apply touched_fmap; intros; by rewrite Hu, Hf|].
    intros i t Hi Hne. rewrite (touched_lookup _ _ _ _ _ _ _ Hi).
    by rewrite (proj2 (Z.eqb_neq _ _) Hne). }
  intros op field Hop.
  apply elem_of_cons in Hop as [[= -> ->]|Hop]; [by apply Hall|].
  apply elem_of_cons in Hop as [[= -> ->]|Hop]; [by apply Hall|].
  apply elem_of_cons in Hop as [[= -> ->]|Hop]; [by apply Hall|].
  by apply elem_of_nil in Hop.
Qed.

Lemma X9_witness :
  ∃ r' err w',
    Update 3 "water plants" duplicate_repo fresh_world = (Ret (r', err), w')
    ∧ ticks w' = 2
    ∧ ID <$> elems (tasks r') = [1; 3; 3]%Z
    ∧ Status <$> elems (tasks r') = ["todo"; "done"; "todo"]%string
    ∧ elems (tasks r') !! 0 = Some (sample 1 "buy milk" "todo").
Proof.
  destruct (X9_mutations_leave_the_rest duplicate_repo 3 "water plants" fresh_world
              (Update 3 "water plants") Status (list_elem_of_here _ _))
    as (r' & err & w' & Hrun & Ht & Hid & _ & Hst & Hother).
  exists r', err, w'. split; [exact Hrun|]. split; [exact Ht|].
  split; [exact Hid|]. split; [exact Hst|].
  apply (Hother 0 (sample 1 "buy milk" "todo")); [reflexivity|discriminate].
Defined.

(** *** A first run that adds nothing *)

(** X10. When there is no task file, the construction creates it with the
    marshalled empty list but leaves the slice of the repository nil.  A
    first run of [update], [delete], [mark-in-progress] or [mark-done]
    (which finds no task) therefore exits with 0 after a second write, and
    leaves in the file the marshalling of the nil slice, which
    [encoding/json] writes as [null], not as [[]]. *)
Theorem X10_first_run_writes_nil `{json : JsonCodec}
    (prog text description : string) (id : Z) (w : World) (d0 dnil : string) :
  files (fs w) !! "tasks.json"%string = None →
  "tasks.json"%string ∉ no_write (fs w) →
  Marshal (Slice []) = inr d0 →
  Marshal Nil = inr dnil →
  Atoi text = Some id →
  ∀ operands,
    operands ∈ [["update"; text; description]; ["delete"; text];
                ["mark-in-progress"; text]; ["mark-done"; text]]%string →
    ∃ w', run (prog :: operands) w = (0%Z, w')
          ∧ log w' = log w ++ [EvReadFile "tasks.json"; EvWriteFile "tasks.json" d0;
                               EvWriteFile "tasks.json" dnil]
          ∧ files (fs w') !! "tasks.json"%string = Some dnil.
Proof.
  intros Hnone Hw Hm0 Hmn Hid operands Hop.
  pose proof (new_repo_created "tasks.json" w d0 Hnone Hm0 Hw) as Hnew.
  set (w0 := written "tasks.json" d0 (emit (EvReadFile "tasks.json") w)) in *.
  set (r0 := mkRepo "tasks.json" Nil) in *.
  assert (save r0 w0 = (Ret None, written "tasks.json" dnil w0)) as Hsave
    by (by apply (save_accepted r0 w0 dnil)).
  assert (∀ (op : JsonTaskRepository → IO (JsonTaskRepository * option error)) command args,
    dispatch command args r0 w0 = op r0 w0 →
    only_saves op r0 w0 →
    ∃ w', run (prog :: command :: args) w = (0%Z, w')
          ∧ log w' = log w ++ [EvReadFile "tasks.json"; EvWriteFile "tasks.json" d0;
                               EvWriteFile "tasks.json" dnil]
          ∧ files (fs w') !! "tasks.json"%string = Some dnil) as Hrun.
  { intros op command args Hd Hs.
    rewrite (run_constructed _ _ _ _ _ _ Hnew), Hd, Hs, bind_run, Hsave.
    eexists. split; [reflexivity|]. split.
    - cbn. by rewrite <- !app_assoc.
    - cbn. apply lookup_insert_eq. }
  apply elem_of_cons in Hop as [->|Hop].
  { apply (Hrun (Update id description)).
    - change (dispatch "update" ?a ?r ?w0) with (update a r w0). unfold update.
      by rewrite Hid.
    - by apply touch_save_absent. }
  apply elem_of_cons in Hop as [->|Hop].
  { apply (Hrun (Delete id)).
    - change (dispatch "delete" ?a ?r ?w0) with (delete a r w0). unfold delete.
      by rewrite Hid.
    - by apply Delete_absent. }
  apply elem_of_cons in Hop as [->|Hop].
  { apply (Hrun (MarkInProgress id)).
    - change (dispatch "mark-in-progress" ?a ?r ?w0) with (markInProgress a r w0).
      unfold markInProgress. by rewrite Hid.
    - by apply touch_save_absent. }
  apply elem_of_cons in Hop as [->|Hop].
  { apply (Hrun (MarkDone id)).
    - change (dispatch "mark-done" ?a ?r ?w0) with (markDone a r w0).
      unfold markDone. by rewrite Hid.
    - by apply touch_save_absent. }
  by apply elem_of_nil in Hop.
Qed.

Lemma X10_witness :
  files (fs fresh_world) !! "tasks.json"%string = None
  ∧ ("tasks.json"%string ∉ no_write (fs fresh_world))
  ∧ Marshal (Slice []) = inr "[]"%string
  ∧ Marshal Nil = inr "null"%string
  ∧ Atoi "1" = Some 1%Z
  ∧ ∃ w', run ["task-tracker"; "mark-done"; "1"]%string fresh_world = (0%Z, w')
          ∧ log w' = [EvReadFile "tasks.json"; EvWriteFile "tasks.json" "[]";
                      EvWriteFile "tasks.json" "null"]
          ∧ files (fs w') !! "tasks.json"%string = Some "null"%string.
Proof.
  split; [reflexivity|]. split; [apply not_elem_of_empty|].
  split; [reflexivity|]. split; [reflexivity|]. split; [reflexivity|].
  apply (X10_first_run_writes_nil (json := goJson)
           "task-tracker" "1" "call home" 1 fresh_world "[]" "null"
           eq_refl (not_elem_of_empty _) eq_refl eq_refl eq_refl).
  do 3 apply list_elem_of_further. apply list_elem_of_here.
Defined.

(** *** A run of [add] *)

Lemma Add_refused `{json : JsonCodec} description r w data :
  Marshal (append (tasks r) (new_task description r w)) = inr data →
  filename r ∈ no_write (fs w) →
  Add description r w =
    (Ret (added description r w,
          (new_task description r w, Some (PathError "open" (filename r) EACCES))),
     emit (EvWriteFile (filename r) data) (tick (tick w))).
Proof.
  intros Hm Hw. rewrite Add_run. unfold save_error, save_world, added.
  cbn [tasks filename]. rewrite Hm. cbn [fs tick].
  destruct (decide _) as [_|Hnot]; [reflexivity|by destruct (Hnot Hw)].
Qed.

(** X11. A run of [add <description>] on a task file that loads a list of
    n tasks creates the task with id n + 1 and status todo, and offers the
    list with the task appended to the file.  The write accepted, the run
    exits with 0, has printed [task added successfully (ID: n+1)], and the
    file holds the new list.  The write refused, the run exits with 1, has
    printed nothing on standard output and the line
    [Error: open tasks.json: permission denied] on standard error, and no
    file has changed. *)
Theorem X11_add_run `{json : JsonCodec}
    (prog description : string) (w : World) (data data' : string) (s : slice Task) :
  let task := mkTask (Z.of_nat (len s) + 1) description "todo"
                     (clock w (ticks w)) (clock w (S (ticks w))) in
  files (fs w) !! "tasks.json"%string = Some data →
  "tasks.json"%string ∉ no_read (fs w) →
  Unmarshal data Nil = (s, None) →
  Marshal (append s task) = inr data' →
  ("tasks.json"%string ∉ no_write (fs w) →
     ∃ w', run [prog; "add"%string; description] w = (0%Z, w')
           ∧ log w' = log w ++ [EvReadFile "tasks.json"; EvWriteFile "tasks.json" data';
                                EvStdout ("task added successfully (ID: "
                                          ++ itoa (Z.of_nat (len s) + 1) ++ ")" ++ nl)%string]
           ∧ files (fs w') !! "tasks.json"%string = Some data')
  ∧ ("tasks.json"%string ∈ no_write (fs w) →
       ∃ w', run [prog; "add"%string; description] w = (1%Z, w')
             ∧ log w' = log w ++ [EvReadFile "tasks.json"; EvWriteFile "tasks.json" data';
                                  EvStderr ("Error: open tasks.json: permission denied"
                                            ++ nl)%string]
             ∧ fs w' = fs w).
Proof.
  intros task Hfile Hread Hload Hm.
  pose proof (new_repo_loaded "tasks.json" w s data Hfile Hread Hload) as Hnew.
  set (w0 := emit (EvReadFile "tasks.json") w) in *.
  set (r0 := mkRepo "tasks.json" s) in *.
  assert (dispatch "add" [description] r0 w0 = add [description] r0 w0) as Hd
    by reflexivity.
  split.
  - intros Hw. rewrite (run_constructed _ _ _ _ _ _ Hnew), Hd.
    unfold add. cbv beta iota. rewrite bind_run.
    rewrite (Add_accepted _ _ _ data'); [|exact Hm|exact Hw].
    eexists. split; [reflexivity|]. split.
    + cbn. by rewrite <- !app_assoc.
    + cbn. apply lookup_insert_eq.
  - intros Hw. rewrite (run_constructed _ _ _ _ _ _ Hnew), Hd.
    unfold add. cbv beta iota. rewrite bind_run.
    rewrite (Add_refused _ _ _ data'); [|exact Hm|exact Hw].
    eexists. split; [reflexivity|]. split; [|reflexivity].
    cbn. by rewrite <- !app_assoc.
Qed.

Lemma X11_witness :
  files (fs (world_with three_tasks_json)) !! "tasks.json"%string = Some three_tasks_json
  ∧ ("tasks.json"%string ∉ no_read (fs (world_with three_tasks_json)))
  ∧ Unmarshal three_tasks_json Nil = (Slice three_tasks, None)
  ∧ ("tasks.json"%string ∉ no_write (fs (world_with three_tasks_json)))
  ∧ "tasks.json"%string ∈ no_write (fs (locked_world_with three_tasks_json))
  ∧ ∃ data' w' w'',
      Marshal (append (Slice three_tasks)
                 (mkTask 4 "water plants" "todo" (seconds_clock 0) (seconds_clock 1)))
      = inr data'
      ∧ run ["task-tracker"; "add"; "water plants"]%string (world_with three_tasks_json)
        = (0%Z, w')
      ∧ log w' = [EvReadFile "tasks.json"; EvWriteFile "tasks.json" data';
                  EvStdout ("task added successfully (ID: 4)" ++ nl)%string]
      ∧ files (fs w') !! "tasks.json"%string = Some data'
      ∧ run ["task-tracker"; "add"; "water plants"]%string
            (locked_world_with three_tasks_json)
        = (1%Z, w'')
      ∧ fs w'' = fs (locked_world_with three_tasks_json).
Proof.
  assert ("tasks.json"%string ∈ no_write (fs (locked_world_with three_tasks_json)))
    as Hlocked by (cbn; apply elem_of_singleton; reflexivity).
  assert (Unmarshal three_tasks_json Nil = (Slice three_tasks, None)) as Hload
    by (vm_compute; reflexivity).
  assert (∃ data',
    Marshal (append (Slice three_tasks)
               (mkTask 4 "water plants" "todo" (seconds_clock 0) (seconds_clock 1)))
    = inr data') as [data' Hm] by (eexists; vm_compute; reflexivity).
  split; [apply lookup_singleton_eq|]. split; [apply not_elem_of_empty|].
  split; [exact Hload|]. split; [apply not_elem_of_empty|]. split; [exact Hlocked|].
  destruct (proj1 (X11_add_run "task-tracker" "water plants" (world_with three_tasks_json)
                     three_tasks_json data' (Slice three_tasks)
                     (lookup_singleton_eq _ _) (not_elem_of_empty _) Hload Hm)
              (not_elem_of_empty _)) as (w' & Hrun & Hlog & Hf).
  destruct (proj2 (X11_add_run "task-tracker" "water plants"
                     (locked_world_with three_tasks_json)
                     three_tasks_json data' (Slice three_tasks)
                     (lookup_singleton_eq _ _) (not_elem_of_empty _) Hload Hm)
              Hlocked) as (w'' & Hrun' & _ & Hfs).
  exists data', w', w''. split; [exact Hm|]. split; [exact Hrun|].
  split; [exact Hlog|]. split; [exact Hf|]. split; [exact Hrun'|exact Hfs].
Defined.

(** *** Runs of [update], [mark-in-progress] and [mark-done] *)

(** X12. A run of [update <id> <description>], [mark-in-progress <id>] or
    [mark-done <id>] on a task file that loads offers to the file the list
    in which every task with the id has the new description (or status) and
    a fresh [UpdatedAt].  The write accepted, the run exits with 0 and has
    printed nothing; the write refused, the run exits with 1 with the line
    [Error: open tasks.json: permission denied] on standard error, and no
    file has changed. *)
Theorem X12_touch_runs `{json : JsonCodec}
    (prog text description : string) (id : Z) (w : World) (data : string)
    (s : slice Task) :
  files (fs w) !! "tasks.json"%string = Some data →
  "tasks.json"%string ∉ no_read (fs w) →
  Unmarshal data Nil = (s, None) →
  Atoi text = Some id →
  ∀ operands assign,
    (operands, assign) ∈ [(["update"; text; description]%string, set_Description description);
                          (["mark-in-progress"; text]%string, set_Status "in-progress");
                          (["mark-done"; text]%string, set_Status "done")] →
    ∀ data', Marshal (touched_slice id assign w s) = inr data' →
      ("tasks.json"%string ∉ no_write (fs w) →
         ∃ w', run (prog :: operands) w = (0%Z, w')
               ∧ log w' = log w ++ [EvReadFile "tasks.json"; EvWriteFile "tasks.json" data']
               ∧ files (fs w') !! "tasks.json"%string = Some data')
      ∧ ("tasks.json"%string ∈ no_write (fs w) →
           ∃ w', run (prog :: operands) w = (1%Z, w')
                 ∧ log w' = log w ++ [EvReadFile "tasks.json";
                                      EvWriteFile "tasks.json" data';
                                      EvStderr ("Error: open tasks.json: permission denied"
                                                ++ nl)%string]
                 ∧ fs w' = fs w).
Proof.
  intros Hfile Hread Hload Hid operands assign Hop data' Hm.
  pose proof (new_repo_loaded "tasks.json" w s data Hfile Hread Hload) as Hnew.
  assert (∃ command args,
    operands = command :: args
    ∧ dispatch command args (mkRepo "tasks.json" s) (emit (EvReadFile "tasks.json") w)
      = (ts ← range_from (touch_body id assign) 0 (len (tasks (mkRepo "tasks.json" s)))
                         (tasks (mkRepo "tasks.json" s));
         let r := mkRepo (filename (mkRepo "tasks.json" s)) ts in
         err ← save r;
         mret (r, err)) (emit (EvReadFile "tasks.json") w))
    as (command & args & -> & Hd).
  { apply elem_of_cons in Hop as [[= -> ->]|Hop].
    { eexists _, _. split; [reflexivity|].
      change (dispatch "update" ?a ?r ?w0) with (update a r w0).
      unfold update. by rewrite Hid. }
    apply elem_of_cons in Hop as [[= -> ->]|Hop].
    { eexists _, _. split; [reflexivity|].
      change (dispatch "mark-in-progress" ?a ?r ?w0) with (markInProgress a r w0).
      unfold markInProgress. by rewrite Hid. }
    apply elem_of_cons in Hop as [[= -> ->]|Hop].
    { eexists _, _. split; [reflexivity|].
      change (dispatch "mark-done" ?a ?r ?w0) with (markDone a r w0).
      unfold markDone. by rewrite Hid. }
    by apply elem_of_nil in Hop. }
  rewrite (run_constructed _ _ _ _ _ _ Hnew), Hd, touch_save_run. cbv zeta.
  unfold save_error, save_world. cbn [tasks filename clock ticks emit fs].
  change (match s with
          | Nil => Nil
          | Slice l => Slice (touched id assign (clock w) (ticks w) l)
          end) with (touched_slice id assign w s).
  rewrite Hm.
  split; intros Hw; (destruct (decide _) as [Hin|Hnot]; [try by destruct (Hw Hin)|
                                                         try by destruct (Hnot Hw)]).
  - eexists. split; [reflexivity|]. split.
    + cbn. by rewrite <- !app_assoc.
    + cbn. apply lookup_insert_eq.
  - eexists. split; [reflexivity|]. split; [|reflexivity].
    cbn. by rewrite <- !app_assoc.
Qed.

Lemma X12_witness :
  Unmarshal three_tasks_json Nil = (Slice three_tasks, None)
  ∧ Atoi "1" = Some 1%Z
  ∧ "tasks.json"%string ∈ no_write (fs (locked_world_with three_tasks_json))
  ∧ ∃ data' w' w'',
      Marshal (Slice [mkTask 1 "buy milk" "in-progress" 1714564800000000000%Z
                             (seconds_clock 0);
                      sample 2 "call home" "in-progress"; sample 3 "pay rent" "done"])
      = inr data'
      ∧ run ["task-tracker"; "mark-in-progress"; "1"]%string (world_with three_tasks_json)
        = (0%Z, w')
      ∧ log w' = [EvReadFile "tasks.json"; EvWriteFile "tasks.json" data']
      ∧ files (fs w') !! "tasks.json"%string = Some data'
      ∧ run ["task-tracker"; "mark-in-progress"; "1"]%string
            (locked_world_with three_tasks_json)
        = (1%Z, w'')
      ∧ log w'' = [EvReadFile "tasks.json"; EvWriteFile "tasks.json" data';
                   EvStderr ("Error: open tasks.json: permission denied" ++ nl)%string]
      ∧ fs w'' = fs (locked_world_with three_tasks_json).
Proof.
  assert (Unmarshal three_tasks_json Nil = (Slice three_tasks, None)) as Hload
    by (vm_compute; reflexivity).
  assert ("tasks.json"%string ∈ no_write (fs (locked_world_with three_tasks_json)))
    as Hlocked by (cbn; apply elem_of_singleton; reflexivity).
  assert (∃ data',
    Marshal (touched_slice 1 (set_Status "in-progress") (world_with three_tasks_json)
               (Slice three_tasks)) = inr data') as [data' Hm]
    by (eexists; vm_compute; reflexivity).
  assert ((["mark-in-progress"; "1"]%string, set_Status "in-progress")
          ∈ [(["update"; "1"; "call home"]%string, set_Description "call home");
             (["mark-in-progress"; "1"]%string, set_Status "in-progress");
             (["mark-done"; "1"]%string, set_Status "done")]) as Hop
    by (apply list_elem_of_further, list_elem_of_here).
  destruct (proj1 (X12_touch_runs "task-tracker" "1" "call home" 1
                     (world_with three_tasks_json) three_tasks_json (Slice three_tasks)
                     (lookup_singleton_eq _ _) (not_elem_of_empty _) Hload eq_refl
                     _ _ Hop data' Hm) (not_elem_of_empty _))
    as (w' & Hrun & Hlog & Hf).
  destruct (proj2 (X12_touch_runs "task-tracker" "1" "call home" 1
                     (locked_world_with three_tasks_json) three_tasks_json
                     (Slice three_tasks)
                     (lookup_singleton_eq _ _) (not_elem_of_empty _) Hload eq_refl
                     _ _ Hop data' Hm) Hlocked)
    as (w'' & Hrun' & Hlog' & Hfs).
  split; [exact Hload|]. split; [reflexivity|]. split; [exact Hlocked|].
  exists data', w', w''. split; [exact Hm|]. split; [exact Hrun|].
  split; [exact Hlog|]. split; [exact Hf|]. split; [exact Hrun'|].
  split; [exact Hlog'|exact Hfs].
Defined.

(** *** Constructions that fail *)

(** X13. Two ways in which the construction fails, whatever the command.
    When the task file is there but cannot be read, the error of the read
    is dropped: the program unmarshals the empty input, and reports the
    error of that.  When there is no task file and it cannot be created,
    the program reports the error of the write.  Both runs exit with 1. *)
Theorem X13_construction_failures `{json : JsonCodec}
    (prog command : string) (args : list string) (w : World) :
  (∀ content ts e,
     files (fs w) !! "tasks.json"%string = Some content →
     "tasks.json"%string ∈ no_read (fs w) →
     Unmarshal EmptyString Nil = (ts, Some e) →
     run (prog :: command :: args) w
     = (1%Z, emit (EvStderr ("Error initializing repository: " ++ Error e ++ nl)%string)
               (emit (EvReadFile "tasks.json") w)))
  ∧ (∀ d0,
       files (fs w) !! "tasks.json"%string = None →
       Marshal (Slice []) = inr d0 →
       "tasks.json"%string ∈ no_write (fs w) →
       run (prog :: command :: args) w
       = (1%Z, emit (EvStderr ("Error initializing repository: "
                               ++ "open tasks.json: permission denied" ++ nl)%string)
                 (emit (EvWriteFile "tasks.json" d0) (emit (EvReadFile "tasks.json") w)))).
Proof.
  split.
  - intros content ts e Hfile Hread Hu. unfold run, main.
    rewrite bind_run, (new_repo_present _ _ _ Hfile).
    destruct (decide _) as [_|Hnot]; [|by destruct (Hnot Hread)].
    by rewrite Hu.
  - intros d0 Hnone Hm Hw. unfold run, main.
    rewrite bind_run, (new_repo_absent _ _ Hnone), Hm.
    by destruct (decide _) as [_|Hnot]; [|destruct (Hnot Hw)].
Qed.

Lemma X13_witness :
  files (fs (unreadable_world_with three_tasks_json)) !! "tasks.json"%string
  = Some three_tasks_json
  ∧ "tasks.json"%string ∈ no_read (fs (unreadable_world_with three_tasks_json))
  ∧ Unmarshal EmptyString Nil = (Nil, Some (JsonError "unexpected end of JSON input"))
  ∧ run ["task-tracker"; "list"]%string (unreadable_world_with three_tasks_json)
    = (1%Z, emit (EvStderr ("Error initializing repository: "
                            ++ "unexpected end of JSON input" ++ nl)%string)
              (emit (EvReadFile "tasks.json") (unreadable_world_with three_tasks_json)))
  ∧ files (fs readonly_world) !! "tasks.json"%string = None
  ∧ Marshal (Slice []) = inr "[]"%string
  ∧ "tasks.json"%string ∈ no_write (fs readonly_world)
  ∧ run ["task-tracker"; "list"]%string readonly_world
    = (1%Z, emit (EvStderr ("Error initializing repository: "
                            ++ "open tasks.json: permission denied" ++ nl)%string)
              (emit (EvWriteFile "tasks.json" "[]")
                    (emit (EvReadFile "tasks.json") readonly_world))).
Proof.
  assert ("tasks.json"%string ∈ no_read (fs (unreadable_world_with three_tasks_json)))
    as Hr by (cbn; apply elem_of_singleton; reflexivity).
  assert ("tasks.json"%string ∈ no_write (fs readonly_world))
    as Hw by (cbn; apply elem_of_singleton; reflexivity).
  split; [apply lookup_singleton_eq|]. split; [exact Hr|]. split; [reflexivity|].
  split.
  { exact (proj1 (X13_construction_failures (json := goJson) "task-tracker" "list" []
                    (unreadable_world_with three_tasks_json))
             three_tasks_json Nil _ (lookup_singleton_eq _ _) Hr eq_refl). }
  split; [reflexivity|]. split; [reflexivity|]. split; [exact Hw|].
  exact (proj2 (X13_construction_failures (json := goJson) "task-tracker" "list" []
                  readonly_world) "[]"%string eq_refl eq_refl Hw).
Defined.

(** *** The ids stay distinct, except through [Add] *)

Lemma skipdel_sublist_upto id (n : nat) : ∀ l : list Task,
  length l ≤ n → skipdel id l `sublist_of` l.
Proof.
  induction n as [|n IH]; intros [|x l'] Hl; [apply sublist_nil|cbn in Hl; lia|
                                              apply sublist_nil|].
  cbn in Hl. cbn [skipdel]. destruct (ID x =? id)%Z.
  - destruct l' as [|u l'']; [apply sublist_nil_l|].
    apply sublist_cons, sublist_skip, IH. cbn in Hl. lia.
  - apply sublist_skip, IH. lia.
Qed.

Lemma skipdel_sublist id (l : list Task) : skipdel id l `sublist_of` l.
Proof. by apply (skipdel_sublist_upto id (length l)). Qed.

Lemma last_and_earlier_dup id (l : list Task) :
  last_and_earlier id l = true → ¬ NoDup (ID <$> l).
Proof.
  unfold last_and_earlier. destruct (reverse l) as [|y before] eqn:Hrev; [done|].
  apply (f_equal reverse) in Hrev. rewrite reverse_involutive, reverse_cons in Hrev.
  subst l. intros [Hy Hex]%andb_prop Hnd.
  apply Z.eqb_eq in Hy. apply existsb_id_true in Hex as (j & t & Hj & Ht).
  rewrite fmap_app in Hnd. apply NoDup_app in Hnd as (_ & Hdisj & _).
  apply (Hdisj id).
  - apply list_elem_of_fmap. exists t. split; [done|].
    apply elem_of_reverse_2, list_elem_of_lookup. eauto.
  - cbn. rewrite Hy. left.
Qed.

(** X14. Pairwise distinct ids stay pairwise distinct under [Update],
    [Delete], [MarkInProgress] and [MarkDone], each of which then returns;
    under [Add] they stay so exactly when no task of the list already has
    the id [len + 1] that [Add] assigns. *)
Theorem X14_distinct_ids `{json : JsonCodec}
    (r : JsonTaskRepository) (id : Z) (description : string) (w : World) :
  NoDup (ID <$> elems (tasks r)) →
  (∀ op, op ∈ [Update id description; Delete id; MarkInProgress id; MarkDone id] →
     ∃ r' err w', op r w = (Ret (r', err), w') ∧ NoDup (ID <$> elems (tasks r')))
  ∧ ∃ r' task err w',
      Add description r w = (Ret (r', (task, err)), w')
      ∧ (NoDup (ID <$> elems (tasks r'))
         ↔ Forall (λ t, ID t ≠ (Z.of_nat (len (tasks r)) + 1)%Z) (elems (tasks r))).
Proof.
  intros Hnd. split.
  - assert (∀ assign, (∀ t, ID (assign t) = ID t) →
      ∃ r' err w',
        (ts ← range_from (touch_body id assign) 0 (len (tasks r)) (tasks r);
         let r := mkRepo (filename r) ts in
         err ← save r;
         mret (r, err)) w = (Ret (r', err), w')
        ∧ NoDup (ID <$> elems (tasks r'))) as Htouch.
    { intros assign Hid. rewrite touch_save_run. cbv zeta.
      eexists _, _, _. split; [reflexivity|].
      destruct r as [f [|l]]; cbn [tasks elems] in *; [done|].
      rewrite touched_fmap; [done|]. intros; cbn; apply Hid. }
    intros op Hop.
    apply elem_of_cons in Hop as [->|Hop]; [by apply Htouch|].
    apply elem_of_cons in Hop as [->|Hop].
    { rewrite Delete_run_any.
      destruct (last_and_earlier id (elems (tasks r))) eqn:Hle.
      { by destruct (last_and_earlier_dup _ _ Hle). }
      rewrite bind_run, save_run. eexists _, _, _. split; [reflexivity|].
      destruct r as [f [|l]]; cbn [tasks elems deleted] in *; [done|].
      apply (sublist_NoDup _ (ID <$> l)); [done|].
      apply fmap_sublist, skipdel_sublist. }
    apply elem_of_cons in Hop as [->|Hop]; [by apply Htouch|].
    apply elem_of_cons in Hop as [->|Hop]; [by apply Htouch|].
    by apply elem_of_nil in Hop.
  - rewrite Add_run. eexists _, _, _, _. split; [reflexivity|].
    cbn [added tasks append elems]. rewrite fmap_app. cbn [fmap list_fmap new_task ID].
    rewrite NoDup_app. split.
    + intros (_ & Hdisj & _). apply Forall_forall. intros t Ht E.
      apply (Hdisj (ID t)); [apply list_elem_of_fmap; eauto|]. rewrite E. left.
    + intros Hall. split; [done|]. split; [|apply NoDup_singleton].
      intros x Hx Hin. apply list_elem_of_singleton in Hin. subst x.
      apply list_elem_of_fmap in Hx as (t & Ht & Hin).
      by apply (proj1 (Forall_forall _ _) Hall t Hin).
Qed.

Lemma X14_witness :
  NoDup (ID <$> elems (tasks sample_repo))
  ∧ (∃ r' err w',
       Delete 2 sample_repo fresh_world = (Ret (r', err), w')
       ∧ NoDup (ID <$> elems (tasks r')))
  ∧ ∃ r' task err w',
      Add "water plants" sample_repo fresh_world = (Ret (r', (task, err)), w')
      ∧ NoDup (ID <$> elems (tasks r')).
Proof.
  assert (NoDup (ID <$> elems (tasks sample_repo))) as Hnd
    by (apply (bool_decide_unpack _); exact I).
  destruct (X14_distinct_ids sample_repo 2 "water plants" fresh_world Hnd)
    as [Hops (r' & task & err & w' & Hrun & Hiff)].
  split; [exact Hnd|]. split.
  - apply Hops. apply list_elem_of_further, list_elem_of_here.
  - exists r', task, err, w'. split; [exact Hrun|]. apply Hiff.
    repeat constructor; discriminate.
Defined.
